(** * The passkey plugin of better-auth: challenge cookie, registration and
    authentication endpoints

    A shallow embedding of [passkey (options)] and of its four endpoints
    ([generatePasskeyRegistrationOptions],
    [generatePasskeyAuthenticationOptions], [verifyPasskeyRegistration],
    [verifyPasskeyAuthentication]).

    The endpoints are state-passing functions over the rows of the data
    adapter.  What the plugin imports from other packages is kept behind
    interfaces: the WebAuthn ceremony functions of [@simplewebauthn/server],
    the cookie signing of the endpoint context, and the [JSON] and [Buffer]
    built-ins.  JavaScript exceptions are values of [Try]; an exception that
    is raised inside a [try] block is turned into the reply of its [catch]
    block by [try_catch]. *)

From Stdlib Require Import String Ascii List Bool Arith NArith Lia.
Import ListNotations.
Local Open Scope string_scope.
Local Open Scope list_scope.

(** ** JavaScript strings, truthiness and exceptions *)

(** A string is falsy exactly when it is empty; [undefined] and [null] are
    [None]. *)
Definition truthy (s : string) : bool := negb (s =? "").

(** [a || b] where [a] may be [undefined] or [null]. *)
Definition or_else (a : option string) (b : string) : string :=
  match a with
  | Some s => if truthy s then s else b
  | None => b
  end.

(** [s.split(",")] for a one-character separator. *)
Fixpoint split (sep : ascii) (s : string) : list string :=
  match s with
  | EmptyString => [""]
  | String c rest =>
      if Ascii.eqb c sep then "" :: split sep rest
      else match split sep rest with
           | h :: t => String c h :: t
           | [] => [String c ""]
           end
  end.

(** [l.join(",")] is [String.concat ","]. *)
Definition join (sep : string) (l : list string) : string := String.concat sep l.

Inductive Try (A : Type) : Type :=
| Returns (a : A)
| Throws (e : string).
Arguments Returns {A} a.
Arguments Throws {A} e.

Definition bind {A B : Type} (m : Try A) (k : A -> Try B) : Try B :=
  match m with
  | Returns a => k a
  | Throws e => Throws e
  end.

(** [try { body } catch (e) { handler }] *)
Definition try_catch {A : Type} (body : Try A) (handler : string -> A) : A :=
  match body with
  | Returns a => a
  | Throws e => handler e
  end.

Notation "x <- m ;; k" := (bind m (fun x => k))
  (at level 61, m at next level, right associativity).

(** ** Data model *)

Module AdvancedOptions.
Record t := { webAuthnChallengeCookie : option string }.
End AdvancedOptions.

Module PasskeyOptions.
Record t := {
  rpID : string;
  rpName : string;
  origin : option string;
  advanced : option AdvancedOptions.t
}.
End PasskeyOptions.

(** [RequiredDeep<PasskeyOptions>], the type of [opts]. *)
Module Opts.
Record t := {
  origin : option string;
  rpID : string;
  rpName : string;
  webAuthnChallengeCookie : string
}.
End Opts.

Module UserData.
Record t := { id : string; email : string }.
End UserData.

Module WebAuthnCookieType.
Record t := {
  expectedChallenge : string;
  userData : UserData.t;
  callbackURL : option string
}.
End WebAuthnCookieType.

Inductive CredentialDeviceType := singleDevice | multiDevice.

Module Passkey.
Record t := {
  id : string;
  publicKey : string;
  userId : string;
  webauthnUserID : string;
  counter : nat;
  deviceType : CredentialDeviceType;
  backedUp : bool;
  transports : option string;
  createdAt : N
}.

(** The row with [update: { counter }] applied. *)
Definition set_counter (c : nat) (p : t) : t :=
  {| id := id p; publicKey := publicKey p; userId := userId p;
     webauthnUserID := webauthnUserID p; counter := c;
     deviceType := deviceType p; backedUp := backedUp p;
     transports := transports p; createdAt := createdAt p |}.
End Passkey.

(** The user of the caller's session; an absent e-mail is the empty string
    (both are falsy). *)
Module User.
Record t := { id : string; email : string }.
End User.

Module Session.
Record t := { id : string; userId : string }.
End Session.

(** The tables the endpoints reach through [ctx.context.adapter] and
    [ctx.context.internalAdapter]. *)
Module Database.
Record t := { passkey : list Passkey.t; session : list Session.t }.
End Database.

(** ** Cookies and replies *)

Module CookieOptions.
Record t := {
  secure : bool;
  httpOnly : bool;
  sameSite : string;
  maxAge : option N
}.
End CookieOptions.

Module SetCookie.
Record t := { name : string; value : string; options : CookieOptions.t }.
End SetCookie.

(** What a handler hands back: [ctx.json(body, { status, body: { message } })]
    together with the cookies it set, an [APIError] it threw, or any other
    exception that left the handler. *)
Inductive Outcome (A : Type) : Type :=
| Json (status : nat) (body : option A) (message : option string)
       (setCookies : list SetCookie.t)
| ApiError (code : string) (message : string)
| Uncaught (e : string).
Arguments Json {A} status body message setCookies.
Arguments ApiError {A} code message.
Arguments Uncaught {A} e.

(** The endpoint context of one request. *)
Module Context.
Record t := {
  header_origin : option string;           (* ctx.headers?.get("origin") *)
  cookies : list (string * string);        (* the request's Cookie header *)
  secret : string;                         (* ctx.context.secret *)
  sessionTokenName : string;               (* authCookies.sessionToken.name *)
  sessionTokenOptions : CookieOptions.t;   (* authCookies.sessionToken.options *)
  now : N;                                 (* new Date(), in seconds *)
  randomString : string;                   (* generateRandomString(32, ...) *)
  newSessionId : string                    (* the id of a session created now *)
}.
End Context.

(** ** The WebAuthn ceremony library *)

Module PublicKeyCredentialDescriptor.
Record t := { id : string; transports : option (list string) }.
End PublicKeyCredentialDescriptor.

Module AuthenticatorSelection.
Record t := {
  residentKey : string;
  userVerification : string;
  authenticatorAttachment : string
}.
End AuthenticatorSelection.

Module GenerateRegistrationOptionsOpts.
Record t := {
  rpName : string;
  rpID : string;
  userID : list Byte.byte;
  userName : string;
  attestationType : string;
  excludeCredentials : list PublicKeyCredentialDescriptor.t;
  authenticatorSelection : AuthenticatorSelection.t
}.
End GenerateRegistrationOptionsOpts.

(** [allowCredentials] is [None] when the key is not passed at all. *)
Module GenerateAuthenticationOptionsOpts.
Record t := {
  rpID : string;
  userVerification : string;
  allowCredentials : option (list PublicKeyCredentialDescriptor.t)
}.
End GenerateAuthenticationOptionsOpts.

(** The body of a verify-registration request.  The schema is [z.any()];
    the fields are those of [RegistrationResponseJSON], where [transports]
    is optional.  [payload] stands for the attestation data only the
    library reads. *)
Module RegistrationResponseJSON.
Record t := {
  id : string;
  payload : string;
  transports : option (list string)        (* resp.response.transports *)
}.
End RegistrationResponseJSON.

Module AuthenticationResponseJSON.
Record t := { id : string; payload : string }.
End AuthenticationResponseJSON.

Module VerifyRegistrationResponseOpts.
Record t := {
  response : RegistrationResponseJSON.t;
  expectedChallenge : string;
  expectedOrigin : string;
  expectedRPID : string
}.
End VerifyRegistrationResponseOpts.

Module RegistrationInfo.
Record t := {
  credentialID : string;
  credentialPublicKey : list Byte.byte;
  counter : nat;
  credentialDeviceType : CredentialDeviceType;
  credentialBackedUp : bool
}.
End RegistrationInfo.

Module VerifiedRegistrationResponse.
Record t := { verified : bool; registrationInfo : option RegistrationInfo.t }.
End VerifiedRegistrationResponse.

Module Authenticator.
Record t := {
  credentialID : string;
  credentialPublicKey : list Byte.byte;
  counter : nat;
  transports : option (list string)
}.
End Authenticator.

Module VerifyAuthenticationResponseOpts.
Record t := {
  response : AuthenticationResponseJSON.t;
  expectedChallenge : string;
  expectedOrigin : string;
  expectedRPID : string;
  authenticator : Authenticator.t
}.
End VerifyAuthenticationResponseOpts.

Module AuthenticationInfo.
Record t := { newCounter : nat }.
End AuthenticationInfo.

Module VerifiedAuthenticationResponse.
Record t := { verified : bool; authenticationInfo : AuthenticationInfo.t }.
End VerifiedAuthenticationResponse.

(** [@simplewebauthn/server].  The option objects it returns are opaque to
    the plugin except for their [challenge]. *)
Class SimpleWebAuthn := {
  CreationOptionsJSON : Type;
  RequestOptionsJSON : Type;
  creation_challenge : CreationOptionsJSON -> string;
  request_challenge : RequestOptionsJSON -> string;
  generateRegistrationOptions :
    GenerateRegistrationOptionsOpts.t -> CreationOptionsJSON;
  generateAuthenticationOptions :
    GenerateAuthenticationOptionsOpts.t -> RequestOptionsJSON;
  verifyRegistrationResponse :
    VerifyRegistrationResponseOpts.t -> Try VerifiedRegistrationResponse.t;
  verifyAuthenticationResponse :
    VerifyAuthenticationResponseOpts.t -> Try VerifiedAuthenticationResponse.t
}.

(** The built-ins and the cookie signing of the endpoint context:
    [JSON.stringify] and [JSON.parse] at type [WebAuthnCookieType],
    [Buffer.from(bytes).toString("base64")], [Buffer.from(s, "base64")],
    and the signature [setSignedCookie] puts on a value under a secret,
    which [getSignedCookie] checks. *)
Class Runtime := {
  JSON_stringify : WebAuthnCookieType.t -> string;
  JSON_parse : string -> Try WebAuthnCookieType.t;
  toBase64 : list Byte.byte -> string;
  fromBase64 : string -> list Byte.byte;
  signCookie : string -> string -> string;           (* secret, value *)
  unsignCookie : string -> string -> option string   (* secret, signed value *)
}.

(** The contract of the runtime the round trip of the challenge cookie
    rests on. *)
Class RuntimeLaws (R : Runtime) : Prop := {
  parse_stringify : forall d, JSON_parse (JSON_stringify d) = Returns d;
  stringify_truthy : forall d, truthy (JSON_stringify d) = true;
  unsign_sign : forall secret v, unsignCookie secret (signCookie secret v) = Some v
}.

(** The session of the caller: [ctx.context.session] behind
    [sessionMiddleware], the result of [getSessionFromCtx] elsewhere. *)
Module CallerSession.
Record t := { user : User.t }.
End CallerSession.

(** The body of generate-authenticate-options; the whole body is optional. *)
Module AuthenticateOptionsBody.
Record t := { email : option string; callbackURL : option string }.
End AuthenticateOptionsBody.

(** The body of a successful verify-authentication reply:
    [{ session }] or [{ url, redirect: true, session }]. *)
Module LoginBody.
Record t := { url : option string; redirect : bool; session : Session.t }.
End LoginBody.

(** ** The data adapter *)

(** Modelled from the spec: the adapter behind [ctx.context.adapter] is not
    part of the plugin's file.  The spec gives it as a store with
    [create(Credential)], [findById(id) -> Credential?],
    [findByOwner(userId) -> list<Credential>] and [update(id, partial
    fields)]; the rows are kept in insertion order, [findOne] answers with
    the first match and [update] rewrites the rows whose id matches.  Every
    call is taken to return: a store that throws is not modelled, so nothing
    below speaks of a reply that follows a failed write. *)
Module adapter.
Definition findMany_userId (db : Database.t) (userId : string) : list Passkey.t :=
  filter (fun p => Passkey.userId p =? userId) (Database.passkey db).

Definition findOne_id (db : Database.t) (id : string) : option Passkey.t :=
  find (fun p => Passkey.id p =? id) (Database.passkey db).

Definition create (db : Database.t) (data : Passkey.t) : Passkey.t * Database.t :=
  (data, {| Database.passkey := Database.passkey db ++ [data];
            Database.session := Database.session db |}).

Definition update_counter (db : Database.t) (id : string) (counter : nat) : Database.t :=
  {| Database.passkey :=
       map (fun p => if Passkey.id p =? id then Passkey.set_counter counter p else p)
           (Database.passkey db);
     Database.session := Database.session db |}.
End adapter.

(** Modelled from the spec: [internalAdapter.createSession] is not part of
    the plugin's file.  The spec gives [createSession(userId) -> Session];
    the new session row is stored and returned.  The call is taken to
    return. *)
Definition createSession (ctx : Context.t) (userId : string) (db : Database.t)
  : Session.t * Database.t :=
  let s := {| Session.id := Context.newSessionId ctx; Session.userId := userId |} in
  (s, {| Database.passkey := Database.passkey db;
         Database.session := Database.session db ++ [s] |}).

(** ** Signed cookies of the endpoint context *)

(** What [ctx.getSignedCookie] answers: [undefined] when the request has no
    such cookie, [false] when its signature does not verify, the value
    otherwise. *)
Inductive SignedCookie :=
| CookieUndefined
| CookieFalse
| CookieValue (v : string).

Fixpoint lookup (name : string) (l : list (string * string)) : option string :=
  match l with
  | [] => None
  | (k, v) :: rest => if k =? name then Some v else lookup name rest
  end.

Section Endpoints.
Context {W : SimpleWebAuthn} {R : Runtime}.

Definition setSignedCookie (name value secret : string) (o : CookieOptions.t)
  : SetCookie.t :=
  {| SetCookie.name := name;
     SetCookie.value := signCookie secret value;
     SetCookie.options := o |}.

Definition getSignedCookie (ctx : Context.t) (name secret : string) : SignedCookie :=
  match lookup name (Context.cookies ctx) with
  | None => CookieUndefined
  | Some signed =>
      match unsignCookie secret signed with
      | Some v => CookieValue v
      | None => CookieFalse
      end
  end.

(** ** [passkey (options)] *)

(** [process.env.NODE_ENV] *)
Variable NODE_ENV : option string.
Variable options : PasskeyOptions.t.

Definition isDevelopment : bool :=
  match NODE_ENV with
  | Some e => e =? "development"
  | None => false
  end.

Definition opts : Opts.t :=
  {| Opts.origin := PasskeyOptions.origin options;
     Opts.rpID := if isDevelopment then "localhost" else PasskeyOptions.rpID options;
     Opts.rpName := PasskeyOptions.rpName options;
     Opts.webAuthnChallengeCookie :=
       match PasskeyOptions.advanced options with
       | Some a =>
           match AdvancedOptions.webAuthnChallengeCookie a with
           | Some n => n
           | None => "better-auth-passkey"
           end
       | None => "better-auth-passkey"
       end |}.

(** 24 hours *)
Definition webAuthnChallengeCookieExpiration : N := 60 * 60 * 24.

Definition challengeCookieOptions : CookieOptions.t :=
  {| CookieOptions.secure := true;
     CookieOptions.httpOnly := true;
     CookieOptions.sameSite := "lax";
     CookieOptions.maxAge := Some webAuthnChallengeCookieExpiration |}.

(** [passkey.transports?.split(",")] *)
Definition splitTransports (p : Passkey.t) : option (list string) :=
  option_map (split ","%char) (Passkey.transports p).

Definition descriptor (p : Passkey.t) : PublicKeyCredentialDescriptor.t :=
  {| PublicKeyCredentialDescriptor.id := Passkey.id p;
     PublicKeyCredentialDescriptor.transports := splitTransports p |}.

(** The step both issuing endpoints end with: the challenge state is
    serialised and set as a signed cookie. *)
Definition sealChallenge (ctx : Context.t) (data : WebAuthnCookieType.t) : SetCookie.t :=
  setSignedCookie (Opts.webAuthnChallengeCookie opts) (JSON_stringify data)
                  (Context.secret ctx) challengeCookieOptions.

(** *** GET /passkey/generate-register-options *)

Definition registrationOptionsRequest (ctx : Context.t) (session : CallerSession.t)
    (db : Database.t) : GenerateRegistrationOptionsOpts.t :=
  let user := CallerSession.user session in
  let userPasskeys := adapter.findMany_userId db (User.id user) in
  let userID := list_byte_of_string (Context.randomString ctx) in
  {| GenerateRegistrationOptionsOpts.rpName := Opts.rpName opts;
     GenerateRegistrationOptionsOpts.rpID := Opts.rpID opts;
     GenerateRegistrationOptionsOpts.userID := userID;
     GenerateRegistrationOptionsOpts.userName :=
       or_else (Some (User.email user)) (User.id user);
     GenerateRegistrationOptionsOpts.attestationType := "none";
     GenerateRegistrationOptionsOpts.excludeCredentials := map descriptor userPasskeys;
     GenerateRegistrationOptionsOpts.authenticatorSelection :=
       {| AuthenticatorSelection.residentKey := "preferred";
          AuthenticatorSelection.userVerification := "preferred";
          AuthenticatorSelection.authenticatorAttachment := "platform" |} |}.

Definition registrationChallengeState (session : CallerSession.t)
    (challenge : string) : WebAuthnCookieType.t :=
  let user := CallerSession.user session in
  {| WebAuthnCookieType.expectedChallenge := challenge;
     WebAuthnCookieType.userData :=
       {| UserData.id := User.id user;
          UserData.email := or_else (Some (User.email user)) (User.id user) |};
     WebAuthnCookieType.callbackURL := None |}.

Definition generatePasskeyRegistrationOptions (ctx : Context.t)
    (session : CallerSession.t) (db : Database.t)
  : Outcome CreationOptionsJSON * Database.t :=
  let options := generateRegistrationOptions (registrationOptionsRequest ctx session db) in
  let data := registrationChallengeState session (creation_challenge options) in
  (Json 200 (Some options) None [sealChallenge ctx data], db).

(** *** POST /passkey/generate-authenticate-options *)

Definition authenticationOptionsRequest (session : option CallerSession.t)
    (db : Database.t) : GenerateAuthenticationOptionsOpts.t :=
  let userPasskeys :=
    match session with
    | Some s => adapter.findMany_userId db (User.id (CallerSession.user s))
    | None => []
    end in
  {| GenerateAuthenticationOptionsOpts.rpID := Opts.rpID opts;
     GenerateAuthenticationOptionsOpts.userVerification := "preferred";
     GenerateAuthenticationOptionsOpts.allowCredentials :=
       match length userPasskeys with
       | 0 => None
       | S _ => Some (map descriptor userPasskeys)
       end |}.

Definition authenticationChallengeState (session : option CallerSession.t)
    (body : option AuthenticateOptionsBody.t) (challenge : string)
  : WebAuthnCookieType.t :=
  let email := option_map (fun s => User.email (CallerSession.user s)) session in
  let id := option_map (fun s => User.id (CallerSession.user s)) session in
  {| WebAuthnCookieType.expectedChallenge := challenge;
     WebAuthnCookieType.userData :=
       {| UserData.email := or_else email (or_else id "");
          UserData.id := or_else id "" |};
     WebAuthnCookieType.callbackURL :=
       match body with
       | Some b => AuthenticateOptionsBody.callbackURL b
       | None => None
       end |}.

Definition generatePasskeyAuthenticationOptions (ctx : Context.t)
    (session : option CallerSession.t) (body : option AuthenticateOptionsBody.t)
    (db : Database.t)
  : Outcome RequestOptionsJSON * Database.t :=
  let options := generateAuthenticationOptions (authenticationOptionsRequest session db) in
  let data := authenticationChallengeState session body (request_challenge options) in
  (Json 200 (Some options) None [sealChallenge ctx data], db).

(** ** The verifying endpoints *)

(** [options.origin || ctx.headers?.get("origin") || ""] *)
Definition resolveOrigin (ctx : Context.t) : string :=
  or_else (PasskeyOptions.origin options) (or_else (Context.header_origin ctx) "").

(** The step both verifying endpoints share: [getSignedCookie] under the
    configured name and the server secret, the test [!challengeString], and
    [JSON.parse] (which is outside the [try] block of either handler). *)
Inductive Unsealed :=
| ChallengeMissing
| ChallengeMalformed (e : string)
| ChallengeState (data : WebAuthnCookieType.t).

Definition unsealChallenge (ctx : Context.t) : Unsealed :=
  match getSignedCookie ctx (Opts.webAuthnChallengeCookie opts) (Context.secret ctx) with
  | CookieUndefined => ChallengeMissing
  | CookieFalse => ChallengeMissing
  | CookieValue challengeString =>
      if negb (truthy challengeString) then ChallengeMissing
      else match JSON_parse challengeString with
           | Returns data => ChallengeState data
           | Throws e => ChallengeMalformed e
           end
  end.

(** [resp.response.transports.join(",")]; the read of [join] on an absent
    [transports] is a [TypeError]. *)
Definition joinTransports (resp : RegistrationResponseJSON.t) : Try string :=
  match RegistrationResponseJSON.transports resp with
  | Some l => Returns (join "," l)
  | None => Throws "TypeError: Cannot read properties of undefined (reading 'join')"
  end.

(** The argument of [verifyRegistrationResponse]; [expectedRPID] is read
    from [options], not from [opts]. *)
Definition registrationVerifyRequest (resp : RegistrationResponseJSON.t)
    (expectedChallenge origin : string) : VerifyRegistrationResponseOpts.t :=
  {| VerifyRegistrationResponseOpts.response := resp;
     VerifyRegistrationResponseOpts.expectedChallenge := expectedChallenge;
     VerifyRegistrationResponseOpts.expectedOrigin := origin;
     VerifyRegistrationResponseOpts.expectedRPID := PasskeyOptions.rpID options |}.

(** The argument of [verifyAuthenticationResponse]. *)
Definition authenticationVerifyRequest (resp : AuthenticationResponseJSON.t)
    (expectedChallenge origin : string) (passkey : Passkey.t)
  : VerifyAuthenticationResponseOpts.t :=
  {| VerifyAuthenticationResponseOpts.response := resp;
     VerifyAuthenticationResponseOpts.expectedChallenge := expectedChallenge;
     VerifyAuthenticationResponseOpts.expectedOrigin := origin;
     VerifyAuthenticationResponseOpts.expectedRPID := Opts.rpID opts;
     VerifyAuthenticationResponseOpts.authenticator :=
       {| Authenticator.credentialID := Passkey.id passkey;
          Authenticator.credentialPublicKey := fromBase64 (Passkey.publicKey passkey);
          Authenticator.counter := Passkey.counter passkey;
          Authenticator.transports := splitTransports passkey |} |}.

(** The row verify-registration builds from the registration info; the
    fields are evaluated in the order of the object literal, and the one for
    [transports] is the only one that can throw. *)
Definition newPasskey (ctx : Context.t) (userData : UserData.t)
    (registrationInfo : RegistrationInfo.t) (transports : string) : Passkey.t :=
  let pubKey := toBase64 (RegistrationInfo.credentialPublicKey registrationInfo) in
  let userID := Context.randomString ctx in
  {| Passkey.userId := UserData.id userData;
     Passkey.webauthnUserID := userID;
     Passkey.id := RegistrationInfo.credentialID registrationInfo;
     Passkey.publicKey := pubKey;
     Passkey.counter := RegistrationInfo.counter registrationInfo;
     Passkey.deviceType := RegistrationInfo.credentialDeviceType registrationInfo;
     Passkey.transports := Some transports;
     Passkey.backedUp := RegistrationInfo.credentialBackedUp registrationInfo;
     Passkey.createdAt := Context.now ctx |}.

(** *** POST /passkey/verify-registration *)

Definition verifyPasskeyRegistration (ctx : Context.t) (session : CallerSession.t)
    (resp : RegistrationResponseJSON.t) (db : Database.t)
  : Outcome Passkey.t * Database.t :=
  let origin := resolveOrigin ctx in
  if negb (truthy origin) then (Json 400 None None [], db)
  else
    match unsealChallenge ctx with
    | ChallengeMissing => (Json 400 None None [], db)
    | ChallengeMalformed e => (Uncaught e, db)
    | ChallengeState data =>
        let userData := WebAuthnCookieType.userData data in
        let expectedChallenge := WebAuthnCookieType.expectedChallenge data in
        if negb (UserData.id userData =? User.id (CallerSession.user session))
        then (ApiError "UNAUTHORIZED" "You are not authorized to register this passkey", db)
        else
          try_catch
            (verification <-
               verifyRegistrationResponse
                 (registrationVerifyRequest resp expectedChallenge origin) ;;
             match VerifiedRegistrationResponse.verified verification,
                   VerifiedRegistrationResponse.registrationInfo verification with
             | true, Some registrationInfo =>
                 transports <- joinTransports resp ;;
                 let newPasskey := newPasskey ctx userData registrationInfo transports in
                 let '(newPasskeyRes, db') := adapter.create db newPasskey in
                 Returns (Json 200 (Some newPasskeyRes) None [], db')
             | _, _ => Returns (Json 400 None None [], db)
             end)
            (fun e => (Json 400 None (Some "Registration failed") [], db))
    end.

(** *** POST /passkey/verify-authentication *)

Definition verifyPasskeyAuthentication (ctx : Context.t)
    (resp : AuthenticationResponseJSON.t) (db : Database.t)
  : Outcome LoginBody.t * Database.t :=
  let origin := resolveOrigin ctx in
  if negb (truthy origin) then (Json 400 None None [], db)
  else
    match unsealChallenge ctx with
    | ChallengeMissing => (Json 400 None None [], db)
    | ChallengeMalformed e => (Uncaught e, db)
    | ChallengeState data =>
        let expectedChallenge := WebAuthnCookieType.expectedChallenge data in
        let callbackURL := WebAuthnCookieType.callbackURL data in
        match adapter.findOne_id db (AuthenticationResponseJSON.id resp) with
        | None => (Json 401 None (Some "Passkey not found") [], db)
        | Some passkey =>
            try_catch
              (verification <-
                 verifyAuthenticationResponse
                   (authenticationVerifyRequest resp expectedChallenge origin passkey) ;;
               if negb (VerifiedAuthenticationResponse.verified verification)
               then Returns (Json 401 None (Some "verification failed") [], db)
               else
                 let db1 :=
                   adapter.update_counter db (Passkey.id passkey)
                     (AuthenticationInfo.newCounter
                        (VerifiedAuthenticationResponse.authenticationInfo verification)) in
                 let '(s, db2) := createSession ctx (Passkey.userId passkey) db1 in
                 let cookie :=
                   setSignedCookie (Context.sessionTokenName ctx) (Session.id s)
                     (Context.secret ctx) (Context.sessionTokenOptions ctx) in
                 if truthy (or_else callbackURL "")
                 then Returns
                        (Json 200
                           (Some {| LoginBody.url := callbackURL;
                                    LoginBody.redirect := true;
                                    LoginBody.session := s |})
                           None [cookie], db2)
                 else Returns
                        (Json 200
                           (Some {| LoginBody.url := None;
                                    LoginBody.redirect := false;
                                    LoginBody.session := s |})
                           None [cookie], db2))
              (fun e => (Json 400 None (Some "Authentication failed") [], db))
        end
    end.

End Endpoints.

(** ** A runtime and a ceremony library to run the endpoints on

    [referenceRuntime] serialises the challenge state as the JSON text
    [JSON.stringify] gives for it, with the quote and the backslash escaped
    inside strings; its signed cookie value is the value behind a tag that
    only the same secret reproduces.  [referenceWebAuthn] accepts a response
    whose payload is the expected challenge.  They are used to run the
    endpoints on concrete requests and to show that [RuntimeLaws] can be
    met. *)

Module Reference.
Local Open Scope string_scope.

Definition dquote : ascii := ascii_of_nat 34.
Definition backslash : ascii := ascii_of_nat 92.

Fixpoint strip_prefix (p s : string) : option string :=
  match p, s with
  | EmptyString, _ => Some s
  | String a p', String b s' => if Ascii.eqb a b then strip_prefix p' s' else None
  | String _ _, EmptyString => None
  end.

(** The escaped characters of [s], followed by [k]. *)
Fixpoint escape_onto (s k : string) : string :=
  match s with
  | EmptyString => k
  | String c r =>
      if Ascii.eqb c dquote || Ascii.eqb c backslash
      then String backslash (String c (escape_onto r k))
      else String c (escape_onto r k)
  end.

(** The string literal for [s], followed by [k]. *)
Definition quote_onto (s k : string) : string :=
  String dquote (escape_onto s (String dquote k)).

(** Reads an escaped string up to its closing quote; answers with the
    string and with what follows the quote. *)
Fixpoint read_escaped (s : string) : option (string * string) :=
  match s with
  | EmptyString => None
  | String c r =>
      if Ascii.eqb c dquote then Some (EmptyString, r)
      else if Ascii.eqb c backslash then
        match r with
        | EmptyString => None
        | String d r' =>
            match read_escaped r' with
            | Some (x, rest) => Some (String d x, rest)
            | None => None
            end
        end
      else
        match read_escaped r with
        | Some (x, rest) => Some (String c x, rest)
        | None => None
        end
  end.

Definition read_quoted (s : string) : option (string * string) :=
  match s with
  | String c r => if Ascii.eqb c dquote then read_escaped r else None
  | EmptyString => None
  end.

(** The key [k] as it stands in an object: the literal and a colon. *)
Definition key (k rest : string) : string := quote_onto k (String ":" rest).

Definition stringify (d : WebAuthnCookieType.t) : string :=
  let user := WebAuthnCookieType.userData d in
  let tail :=
    match WebAuthnCookieType.callbackURL d with
    | None => "}"
    | Some u => String "," (key "callbackURL" (quote_onto u "}"))
    end in
  let userData :=
    String "{"
      (key "id"
         (quote_onto (UserData.id user)
            (String "," (key "email" (quote_onto (UserData.email user) (String "}" tail)))))) in
  String "{"
    (key "expectedChallenge"
       (quote_onto (WebAuthnCookieType.expectedChallenge d)
          (String "," (key "userData" userData)))).

Definition expect (lit : string) (s : string) : Try string :=
  match strip_prefix lit s with
  | Some rest => Returns rest
  | None => Throws "SyntaxError"
  end.

Definition expect_string (s : string) : Try (string * string) :=
  match read_quoted s with
  | Some r => Returns r
  | None => Throws "SyntaxError"
  end.

Definition parse (s : string) : Try WebAuthnCookieType.t :=
  s <- expect (String "{" (key "expectedChallenge" "")) s ;;
  c <- expect_string s ;;
  s <- expect (String "," (key "userData" (String "{" (key "id" "")))) (snd c) ;;
  i <- expect_string s ;;
  s <- expect (String "," (key "email" "")) (snd i) ;;
  e <- expect_string s ;;
  s <- expect "}" (snd e) ;;
  match strip_prefix "}" s with
  | Some rest =>
      if rest =? "" then
        Returns {| WebAuthnCookieType.expectedChallenge := fst c;
                   WebAuthnCookieType.userData :=
                     {| UserData.id := fst i; UserData.email := fst e |};
                   WebAuthnCookieType.callbackURL := None |}
      else Throws "SyntaxError"
  | None =>
      s <- expect (String "," (key "callbackURL" "")) s ;;
      u <- expect_string s ;;
      if snd u =? "}" then
        Returns {| WebAuthnCookieType.expectedChallenge := fst c;
                   WebAuthnCookieType.userData :=
                     {| UserData.id := fst i; UserData.email := fst e |};
                   WebAuthnCookieType.callbackURL := Some (fst u) |}
      else Throws "SyntaxError"
  end.

(** The tag of a secret and the signed form of a value. *)
Definition sign (secret v : string) : string := secret ++ String "." v.

Definition unsign (secret signed : string) : option string :=
  strip_prefix (secret ++ ".") signed.

(** Bytes are written one character each. *)
Definition runtime : Runtime :=
  {| JSON_stringify := stringify;
     JSON_parse := parse;
     toBase64 := string_of_list_byte;
     fromBase64 := list_byte_of_string;
     signCookie := sign;
     unsignCookie := unsign |}.

(** A ceremony library that issues [challenge], verifies a response when its
    payload is the expected challenge, extracts [info] from a registration
    and reports [newCounter] for an authentication. *)
Definition webAuthn (challenge : string) (info : RegistrationInfo.t) (newCounter : nat)
  : SimpleWebAuthn :=
  {| CreationOptionsJSON := string * GenerateRegistrationOptionsOpts.t;
     RequestOptionsJSON := string * GenerateAuthenticationOptionsOpts.t;
     creation_challenge := fst;
     request_challenge := fst;
     generateRegistrationOptions := fun o => (challenge, o);
     generateAuthenticationOptions := fun o => (challenge, o);
     verifyRegistrationResponse := fun o =>
       let ok := RegistrationResponseJSON.payload (VerifyRegistrationResponseOpts.response o)
                 =? VerifyRegistrationResponseOpts.expectedChallenge o in
       Returns {| VerifiedRegistrationResponse.verified := ok;
                  VerifiedRegistrationResponse.registrationInfo :=
                    if ok then Some info else None |};
     verifyAuthenticationResponse := fun o =>
       let ok := AuthenticationResponseJSON.payload (VerifyAuthenticationResponseOpts.response o)
                 =? VerifyAuthenticationResponseOpts.expectedChallenge o in
       Returns {| VerifiedAuthenticationResponse.verified := ok;
                  VerifiedAuthenticationResponse.authenticationInfo :=
                    {| AuthenticationInfo.newCounter := newCounter |} |} |}.

End Reference.

(** ** What the client sees and sends back *)

(** The HTTP status of a JSON reply. *)
Definition status {A : Type} (o : Outcome A) : option nat :=
  match o with
  | Json s _ _ _ => Some s
  | _ => None
  end.

(** The cookies a reply sets. *)
Definition setCookies {A : Type} (o : Outcome A) : list SetCookie.t :=
  match o with
  | Json _ _ _ cs => cs
  | _ => []
  end.

(** The Cookie header with which a client presents the cookies [set]. *)
Definition sentBack (set : list SetCookie.t) : list (string * string) :=
  map (fun c => (SetCookie.name c, SetCookie.value c)) set.

(** A cookie set at [issuedAt] has outlived its max-age at [now]. *)
Definition expired (c : SetCookie.t) (issuedAt now : N) : bool :=
  match CookieOptions.maxAge (SetCookie.options c) with
  | Some age => (issuedAt + age <=? now)%N
  | None => false
  end.

(** ** Requests used as concrete inputs *)

Module Demo.

Definition options : PasskeyOptions.t :=
  {| PasskeyOptions.rpID := "example.com";
     PasskeyOptions.rpName := "Example";
     PasskeyOptions.origin := None;
     PasskeyOptions.advanced := None |}.

Definition sessionCookieOptions : CookieOptions.t :=
  {| CookieOptions.secure := true;
     CookieOptions.httpOnly := true;
     CookieOptions.sameSite := "lax";
     CookieOptions.maxAge := None |}.

(** A request at time [now] with the given [Origin] header and cookies. *)
Definition request (origin : option string) (cookies : list (string * string))
    (now : N) : Context.t :=
  {| Context.header_origin := origin;
     Context.cookies := cookies;
     Context.secret := "s3cret";
     Context.sessionTokenName := "better-auth.session_token";
     Context.sessionTokenOptions := sessionCookieOptions;
     Context.now := now;
     Context.randomString := "k3j9x0c1v8b2n4m6a5s7d1f3g2h4j6k8";
     Context.newSessionId := "session-1" |}.

Definition alice : CallerSession.t :=
  {| CallerSession.user := {| User.id := "user-A"; User.email := "alice@example.com" |} |}.

Definition bob : CallerSession.t :=
  {| CallerSession.user := {| User.id := "user-B"; User.email := "bob@example.com" |} |}.

(** A credential of user B whose stored counter is [counter]. *)
Definition credential (counter : nat) : Passkey.t :=
  {| Passkey.id := "cred-42";
     Passkey.publicKey := "pk";
     Passkey.userId := "user-B";
     Passkey.webauthnUserID := "handle";
     Passkey.counter := counter;
     Passkey.deviceType := multiDevice;
     Passkey.backedUp := true;
     Passkey.transports := Some "internal,hybrid";
     Passkey.createdAt := 0%N |}.

Definition store (counter : nat) : Database.t :=
  {| Database.passkey := [credential counter]; Database.session := [] |}.

Definition empty : Database.t :=
  {| Database.passkey := []; Database.session := [] |}.

Definition info : RegistrationInfo.t :=
  {| RegistrationInfo.credentialID := "cred-1";
     RegistrationInfo.credentialPublicKey := list_byte_of_string "pk";
     RegistrationInfo.counter := 0;
     RegistrationInfo.credentialDeviceType := singleDevice;
     RegistrationInfo.credentialBackedUp := false |}.

(** The cookies set by an anonymous generate-authenticate-options request
    at time 0, under the library that issues [challenge], and the Cookie
    header that presents them. *)
Definition challengeSet (challenge : string) (newCounter : nat)
  : list SetCookie.t :=
  setCookies
    (fst (generatePasskeyAuthenticationOptions
            (W := Reference.webAuthn challenge info newCounter)
            (R := Reference.runtime)
            None options (request None [] 0%N) None None empty)).

Definition challengeCookies (challenge : string) (newCounter : nat)
  : list (string * string) :=
  sentBack (challengeSet challenge newCounter).

(** The verify-authentication request for credential cred-42 that answers
    the challenge [c1], sent at time [now] with the challenge cookie. *)
Definition loginRequest (newCounter : nat) (now : N) : Context.t :=
  request (Some "https://example.com") (challengeCookies "c1" newCounter) now.

Definition loginResponse : AuthenticationResponseJSON.t :=
  {| AuthenticationResponseJSON.id := "cred-42";
     AuthenticationResponseJSON.payload := "c1" |}.

(** Logging in with cred-42 when the stored counter is [stored] and the
    library reports the new counter [reported]. *)
Definition login (stored reported : nat) : Outcome LoginBody.t * Database.t :=
  verifyPasskeyAuthentication
    (W := Reference.webAuthn "c1" info reported) (R := Reference.runtime)
    None options (loginRequest reported 10%N) loginResponse (store stored).

(** The cookies sent back after user A's generate-register-options request
    at time 0. *)
Definition registrationCookies : list (string * string) :=
  sentBack
    (setCookies
       (fst (generatePasskeyRegistrationOptions
               (W := Reference.webAuthn "c1" info 0) (R := Reference.runtime)
               None options (request None [] 0%N) alice empty))).

(** The ceremony response that answers the challenge [c1]. *)
Definition registrationResponse (transports : option (list string))
  : RegistrationResponseJSON.t :=
  {| RegistrationResponseJSON.id := "cred-1";
     RegistrationResponseJSON.payload := "c1";
     RegistrationResponseJSON.transports := transports |}.

(** [caller] completes the registration user A started. *)
Definition register (origin : option string) (caller : CallerSession.t)
    (transports : option (list string)) : Outcome Passkey.t * Database.t :=
  verifyPasskeyRegistration
    (W := Reference.webAuthn "c1" info 0) (R := Reference.runtime)
    None options (request origin registrationCookies 10) caller
    (registrationResponse transports) empty.

(** A verify-authentication request for a credential id that is not
    stored, sent with the given cookies. *)
Definition unknownCredential : AuthenticationResponseJSON.t :=
  {| AuthenticationResponseJSON.id := "cred-0";
     AuthenticationResponseJSON.payload := "c1" |}.

Definition loginUnknown (origin : option string) (cookies : list (string * string))
  : Outcome LoginBody.t * Database.t :=
  verifyPasskeyAuthentication
    (W := Reference.webAuthn "c1" info 1) (R := Reference.runtime)
    None options (request origin cookies 10%N) unknownCredential (store 0).

(** The argument generate-authenticate-options passes to the library for
    the caller [session] and the body [body]; the store holds one credential
    of user B. *)
Definition allowList (session : option CallerSession.t)
  : option (list PublicKeyCredentialDescriptor.t) :=
  GenerateAuthenticationOptionsOpts.allowCredentials
    (authenticationOptionsRequest None options session (store 0)).

Definition emailOfB : option AuthenticateOptionsBody.t :=
  Some {| AuthenticateOptionsBody.email := Some "bob@example.com";
          AuthenticateOptionsBody.callbackURL := None |}.

(** A state with a redirect target, sealed by a request at time 0. *)
Definition state : WebAuthnCookieType.t :=
  {| WebAuthnCookieType.expectedChallenge := "c1";
     WebAuthnCookieType.userData :=
       {| UserData.id := "user-A"; UserData.email := "alice@example.com" |};
     WebAuthnCookieType.callbackURL := Some "/dashboard" |}.

Definition sealed : SetCookie.t :=
  sealChallenge (R := Reference.runtime) None options (request None [] 0%N) state.

(** The challenge cookie with a value nobody signed. *)
Definition forgedCookies : list (string * string) :=
  [("better-auth-passkey", "wrong.{}")].

(** Logging in with cred-42 at time [now] with the given cookies. *)
Definition loginAt (now : N) (cookies : list (string * string))
  : Outcome LoginBody.t * Database.t :=
  verifyPasskeyAuthentication
    (W := Reference.webAuthn "c1" info 1) (R := Reference.runtime)
    None options (request (Some "https://example.com") cookies now)
    loginResponse (store 0).

End Demo.

(** ** Transports without a comma *)

(** No character of [s] is a comma. *)
Fixpoint comma_free (s : string) : bool :=
  match s with
  | EmptyString => true
  | String c r => negb (Ascii.eqb c ","%char) && comma_free r
  end.

(** ** Whole ceremonies as concrete inputs *)

Module Scenario.

Definition origin : option string := Some "https://example.com".

(** Anonymous generate-authenticate-options with a redirect target, and the
    login with cred-42 that follows. *)
Definition dashboard : option AuthenticateOptionsBody.t :=
  Some {| AuthenticateOptionsBody.email := None;
          AuthenticateOptionsBody.callbackURL := Some "/dashboard" |}.

Definition redirectCookies : list (string * string) :=
  sentBack
    (setCookies
       (fst (generatePasskeyAuthenticationOptions
               (W := Reference.webAuthn "c1" Demo.info 1) (R := Reference.runtime)
               None Demo.options (Demo.request None [] 0) None dashboard Demo.empty))).

Definition loginWithRedirect : Outcome LoginBody.t * Database.t :=
  verifyPasskeyAuthentication
    (W := Reference.webAuthn "c1" Demo.info 1) (R := Reference.runtime)
    None Demo.options (Demo.request origin redirectCookies 10)
    Demo.loginResponse (Demo.store 0).

(** The row user A's registration stores, and the store after it. *)
Definition enrolled : Passkey.t :=
  {| Passkey.id := "cred-1";
     Passkey.publicKey := "pk";
     Passkey.userId := "user-A";
     Passkey.webauthnUserID := "k3j9x0c1v8b2n4m6a5s7d1f3g2h4j6k8";
     Passkey.counter := 0;
     Passkey.deviceType := singleDevice;
     Passkey.backedUp := false;
     Passkey.transports := Some "internal,hybrid";
     Passkey.createdAt := 10 |}.

Definition afterEnrolment : Database.t :=
  {| Database.passkey := [enrolled]; Database.session := [] |}.

(** A login with the credential cred-1 at time 20. *)
Definition enrolledResponse : AuthenticationResponseJSON.t :=
  {| AuthenticationResponseJSON.id := "cred-1";
     AuthenticationResponseJSON.payload := "c1" |}.

Definition loginEnrolled : Outcome LoginBody.t * Database.t :=
  verifyPasskeyAuthentication
    (W := Reference.webAuthn "c1" Demo.info 0) (R := Reference.runtime)
    None Demo.options (Demo.request origin (Demo.challengeCookies "c1" 0) 20)
    enrolledResponse afterEnrolment.

(** The login of [Demo.login 0 1], sent a second time at time 20 against
    the database the first login left. *)
Definition secondLogin : Outcome LoginBody.t * Database.t :=
  verifyPasskeyAuthentication
    (W := Reference.webAuthn "c1" Demo.info 1) (R := Reference.runtime)
    None Demo.options (Demo.loginRequest 1 20) Demo.loginResponse
    (snd (Demo.login 0 1)).

End Scenario.

(** * The e-mail verification endpoints

    [sendVerificationEmail] and [verifyEmail] of
    [api/routes/verify-email.ts].  [verifyEmail] changes the user table and
    then may throw inside its [try] block, so its handler is written in a
    monad that keeps the state a computation reached when it throws. *)

Module VerifyEmail.

(** A thrown value: an error, or the response [ctx.redirect] builds. *)
Inductive Thrown :=
| Error (e : string)
| Redirect (url : string).

(** A computation over the state [S] that returns a value or throws. *)
Definition M (S A : Type) : Type := S -> (A + Thrown) * S.

Definition ret {S A : Type} (a : A) : M S A := fun s => (inl a, s).

Definition throw {S A : Type} (x : Thrown) : M S A := fun s => (inr x, s).

Definition bindM {S A B : Type} (m : M S A) (k : A -> M S B) : M S B :=
  fun s =>
    match m s with
    | (inl a, s') => k a s'
    | (inr x, s') => (inr x, s')
    end.

(** [try { body } catch (e) { handler }] *)
Definition catch {S A : Type} (body : M S A) (handler : Thrown -> M S A) : M S A :=
  fun s =>
    match body s with
    | (inl a, s') => (inl a, s')
    | (inr x, s') => handler x s'
    end.

(** A library call that may throw and does not touch the state. *)
Definition call {S A : Type} (r : Try A) : M S A :=
  match r with
  | Returns a => ret a
  | Throws e => throw (Error e)
  end.

Notation "x <~ m ;; k" := (bindM m (fun x => k))
  (at level 61, m at next level, right associativity).

(** The options object of [createJWT]; [expiresIn] in seconds. *)
Module JWTOptions.
Record t := {
  expiresIn : N;
  issuer : string;
  subject : string;
  audiences : list string;
  includeIssuedTimestamp : bool
}.
End JWTOptions.

(** What [validateJWT] returns, as far as the handler reads it:
    [jwt.payload.email], [None] when the payload has no string there. *)
Module JWT.
Record t := { payload_email : option string }.
End JWT.

(** [oslo/jwt], the e-mail check of [zod] and [String.prototype.toLowerCase].
    [createJWT] takes the [email] of its payload and the time of the call;
    [validateJWT] takes the time of the call. *)
Class Libraries := {
  createJWT : string -> list Byte.byte -> string -> JWTOptions.t -> N -> string;
  validateJWT : string -> list Byte.byte -> string -> N -> Try JWT.t;
  isEmail : string -> bool;
  toLowerCase : string -> string
}.

(** The contract of [oslo/jwt] a verification link rests on: a token is
    accepted under the key that made it until it expires, and gives back
    the payload it was made from. *)
Class LibrariesLaws (L : Libraries) : Prop := {
  validate_create :
    forall alg key email o t0 t,
      (t < t0 + JWTOptions.expiresIn o)%N ->
      validateJWT alg key (createJWT alg key email o t0) t
      = Returns {| JWT.payload_email := Some email |}
}.

Module Account.
Record t := { providerId : string }.
End Account.

(** A user as [findUserByEmail] returns it. *)
Module UserWithAccounts.
Record t := {
  id : string;
  email : string;
  emailVerified : bool;
  accounts : list Account.t
}.
End UserWithAccounts.

(** The two functions of [ctx.context.internalAdapter] the handler calls, on
    a user table of which nothing else is assumed; both are taken as calls
    that return.  [updateUserByEmail users email b] is the call with
    [{ emailVerified: b }]. *)
Class InternalAdapter := {
  Users : Type;
  findUserByEmail : Users -> string -> option UserWithAccounts.t;
  updateUserByEmail : Users -> string -> bool -> Users
}.

(** [ctx.json(body, { status, statusText, body: { message } })]; the body
    [{ status: b }] is [Some b], the body [null] is [None]. *)
Module Reply.
Record t := {
  status : nat;
  statusText : option string;
  body : option bool;
  message : option string
}.
End Reply.

Module EmailContext.
Record t := {
  secret : string;        (* ctx.context.secret *)
  baseURL : string;       (* ctx.context.baseURL *)
  now : N                 (* the clock, in seconds *)
}.
End EmailContext.

Module SendBody.
Record t := { email : string; callbackURL : option string }.
End SendBody.

Module VerifyQuery.
Record t := { token : string; callbackURL : string }.
End VerifyQuery.

Definition ok : Reply.t :=
  {| Reply.status := 200; Reply.statusText := None;
     Reply.body := Some true; Reply.message := None |}.

Definition failure (statusText message : string) : Reply.t :=
  {| Reply.status := 400; Reply.statusText := Some statusText;
     Reply.body := None; Reply.message := Some message |}.

Section Handlers.
Context {L : Libraries} {A : InternalAdapter}.

(** The token [sendVerificationEmail] makes for [email]. *)
Definition verificationToken (ctx : EmailContext.t) (email : string) : string :=
  createJWT "HS256" (list_byte_of_string (EmailContext.secret ctx))
    (toLowerCase email)
    {| JWTOptions.expiresIn := 3600;
       JWTOptions.issuer := "better-auth";
       JWTOptions.subject := "verify-email";
       JWTOptions.audiences := [email];
       JWTOptions.includeIssuedTimestamp := true |}
    (EmailContext.now ctx).

(** The template literal of the link; an absent [callbackURL] is written
    as the text [undefined]. *)
Definition verificationLink (ctx : EmailContext.t) (token : string)
    (callbackURL : option string) : string :=
  (EmailContext.baseURL ctx ++ "/verify-email?token=" ++ token ++ "?callbackURL="
   ++ match callbackURL with Some c => c | None => "undefined" end)%string.

(** *** POST /send-verification-email

    [send] is [options.emailAndPassword?.sendVerificationEmail], a function
    of the application; it runs over a state of its own and may throw. *)
Definition sendVerificationEmail {S : Type} (ctx : EmailContext.t)
    (send : option (string -> string -> M S unit)) (body : SendBody.t)
  : M S Reply.t :=
  match send with
  | None => ret (failure "VERIFICATION_EMAIL_NOT_SENT" "Verification email isn't enabled")
  | Some send =>
      let email := SendBody.email body in
      let token := verificationToken ctx email in
      let url := verificationLink ctx token (SendBody.callbackURL body) in
      _ <~ send email url ;;
      ret ok
  end.

(** [z.object({ email: z.string().email() }).parse(jwt.payload)] *)
Definition schema_parse (jwt : JWT.t) : Try string :=
  match JWT.payload_email jwt with
  | Some e => if isEmail e then Returns e else Throws "ZodError"
  | None => Throws "ZodError"
  end.

(** *** GET /verify-email *)
Definition verifyEmail (ctx : EmailContext.t) (query : VerifyQuery.t)
  : M Users Reply.t :=
  catch
    (jwt <~ call (validateJWT "HS256" (list_byte_of_string (EmailContext.secret ctx))
                    (VerifyQuery.token query) (EmailContext.now ctx)) ;;
     parsed <~ call (schema_parse jwt) ;;
     user <~ (fun users => (inl (findUserByEmail users parsed), users)) ;;
     match user with
     | None => ret (failure "USER_NOT_FOUND" "User not found")
     | Some user =>
         match find (fun a => Account.providerId a =? "credential")
                    (UserWithAccounts.accounts user) with
         | None => ret (failure "ACCOUNT_NOT_FOUND" "Account not found")
         | Some account =>
             _ <~ (fun users => (inl tt, updateUserByEmail users parsed true)) ;;
             if truthy (VerifyQuery.callbackURL query)
             then throw (Redirect (VerifyQuery.callbackURL query))
             else ret ok
         end
     end)
    (fun e => ret (failure "INVALID_TOKEN" "Invalid token")).

End Handlers.

(** ** Libraries and a user table to run the endpoints on *)

(** A token is its payload behind a tag; an address is valid when it holds
    an at-sign; lower case is taken letter by letter on ASCII. *)
Definition lower (c : ascii) : ascii :=
  let n := nat_of_ascii c in
  if ((65 <=? n)%nat && (n <=? 90)%nat)%bool then ascii_of_nat (n + 32) else c.

Fixpoint lowerCase (s : string) : string :=
  match s with
  | EmptyString => EmptyString
  | String c r => String (lower c) (lowerCase r)
  end.

Fixpoint hasAt (s : string) : bool :=
  match s with
  | EmptyString => false
  | String c r => Ascii.eqb c "@"%char || hasAt r
  end.

Definition referenceLibraries : Libraries :=
  {| createJWT := fun _ _ email _ _ => ("jwt:" ++ email)%string;
     validateJWT := fun _ _ token _ =>
       match Reference.strip_prefix "jwt:" token with
       | Some email => Returns {| JWT.payload_email := Some email |}
       | None => Throws "invalid token"
       end;
     isEmail := hasAt;
     toLowerCase := lowerCase |}.

(** A user table kept as a list. *)
Definition setVerified (b : bool) (u : UserWithAccounts.t) : UserWithAccounts.t :=
  {| UserWithAccounts.id := UserWithAccounts.id u;
     UserWithAccounts.email := UserWithAccounts.email u;
     UserWithAccounts.emailVerified := b;
     UserWithAccounts.accounts := UserWithAccounts.accounts u |}.

Definition referenceAdapter : InternalAdapter :=
  {| Users := list UserWithAccounts.t;
     findUserByEmail := fun users email =>
       find (fun u => UserWithAccounts.email u =? email) users;
     updateUserByEmail := fun users email b =>
       map (fun u => if UserWithAccounts.email u =? email then setVerified b u else u)
           users |}.

(** An outbox as the state of the application's [sendVerificationEmail]. *)
Definition record : string -> string -> M (list (string * string)) unit :=
  fun email url outbox => (inl tt, outbox ++ [(email, url)]).

Definition context (now : N) : EmailContext.t :=
  {| EmailContext.secret := "s3cret";
     EmailContext.baseURL := "https://example.com/api/auth";
     EmailContext.now := now |}.

Definition alice : UserWithAccounts.t :=
  {| UserWithAccounts.id := "user-A";
     UserWithAccounts.email := "alice@example.com";
     UserWithAccounts.emailVerified := false;
     UserWithAccounts.accounts := [{| Account.providerId := "credential" |}] |}.

(** A user who only signed in through a social provider. *)
Definition carol : UserWithAccounts.t :=
  {| UserWithAccounts.id := "user-C";
     UserWithAccounts.email := "carol@example.com";
     UserWithAccounts.emailVerified := false;
     UserWithAccounts.accounts := [{| Account.providerId := "github" |}] |}.

Definition table : list UserWithAccounts.t := [alice; carol].

(** The verify-email request at time [now] for the token mailed at time 0
    to the address [email] as typed. *)
Definition verifyMailed (email callbackURL : string) (now : N)
  : (Reply.t + Thrown) * list UserWithAccounts.t :=
  verifyEmail (L := referenceLibraries) (A := referenceAdapter) (context now)
    {| VerifyQuery.token := verificationToken (L := referenceLibraries) (context 0) email;
       VerifyQuery.callbackURL := callbackURL |}
    table.

End VerifyEmail.

(** ** The reference runtime meets the laws *)

Module ReferenceFacts.
Import Reference.
Local Open Scope string_scope.

Lemma strip_prefix_app (p s : string) : strip_prefix p (p ++ s) = Some s.
Proof.
  induction p as [|a p IH]; simpl; [reflexivity|].
  now rewrite Ascii.eqb_refl.
Qed.

Lemma read_escaped_escape_onto (s k : string) :
  read_escaped (escape_onto s (String dquote k)) = Some (s, k).
Proof.
  induction s as [|c r IH]; simpl.
  - reflexivity.
  - destruct (Ascii.eqb c dquote) eqn:Hq; simpl.
    + now rewrite IH.
    + destruct (Ascii.eqb c backslash) eqn:Hb; simpl.
      * now rewrite IH.
      * now rewrite Hq, Hb, IH.
Qed.

Lemma read_quoted_quote_onto (s k : string) :
  read_quoted (quote_onto s k) = Some (s, k).
Proof.
  unfold read_quoted, quote_onto.
  rewrite Ascii.eqb_refl.
  apply read_escaped_escape_onto.
Qed.

Lemma expect_string_quote_onto (s k : string) :
  expect_string (quote_onto s k) = Returns (s, k).
Proof. unfold expect_string. now rewrite read_quoted_quote_onto. Qed.

Lemma escape_onto_app (s a b : string) :
  escape_onto s (a ++ b) = escape_onto s a ++ b.
Proof.
  induction s as [|c r IH]; simpl; [reflexivity|].
  destruct (Ascii.eqb c dquote || Ascii.eqb c backslash); simpl; now rewrite IH.
Qed.

Lemma key_app (k a b : string) : key k (a ++ b) = key k a ++ b.
Proof.
  unfold key, quote_onto.
  change (String dquote (String ":" (a ++ b)))
    with (String dquote (String ":" a) ++ b).
  now rewrite escape_onto_app.
Qed.

Lemma expect_app (lit rest : string) : expect lit (lit ++ rest) = Returns rest.
Proof. unfold expect. now rewrite strip_prefix_app. Qed.

Lemma expect_key (c : ascii) (k rest : string) :
  expect (String c (key k "")) (String c (key k rest)) = Returns rest.
Proof.
  transitivity (expect (String c (key k "")) (String c (key k "") ++ rest));
    [|apply expect_app].
  f_equal.
  change (String c (key k "") ++ rest) with (String c (key k "" ++ rest)).
  now rewrite <- key_app.
Qed.

Lemma expect_key_key (c c' : ascii) (k k' rest : string) :
  expect (String c (key k (String c' (key k' ""))))
         (String c (key k (String c' (key k' rest)))) = Returns rest.
Proof.
  transitivity (expect (String c (key k (String c' (key k' ""))))
                       (String c (key k (String c' (key k' ""))) ++ rest));
    [|apply expect_app].
  f_equal.
  change (String c (key k (String c' (key k' ""))) ++ rest)
    with (String c (key k (String c' (key k' "")) ++ rest)).
  rewrite <- key_app.
  change (String c' (key k' "") ++ rest) with (String c' (key k' "" ++ rest)).
  now rewrite <- key_app.
Qed.

Lemma reference_parse_stringify (d : WebAuthnCookieType.t) : parse (stringify d) = Returns d.
Proof.
  destruct d as [c [i e] u].
  unfold parse, stringify.
  cbn [WebAuthnCookieType.expectedChallenge WebAuthnCookieType.userData
       WebAuthnCookieType.callbackURL UserData.id UserData.email].
  rewrite expect_key; cbn [bind].
  rewrite expect_string_quote_onto; cbn [bind snd fst].
  rewrite expect_key_key; cbn [bind].
  rewrite expect_string_quote_onto; cbn [bind snd fst].
  rewrite expect_key; cbn [bind].
  rewrite expect_string_quote_onto; cbn [bind snd fst].
  destruct u as [u|]; [|reflexivity].
  cbn [expect strip_prefix Ascii.eqb Bool.eqb bind].
  rewrite expect_key; cbn [bind].
  rewrite expect_string_quote_onto; cbn [bind snd fst].
  reflexivity.
Qed.

Lemma reference_stringify_truthy (d : WebAuthnCookieType.t) : truthy (stringify d) = true.
Proof. reflexivity. Qed.

Lemma reference_unsign_sign (secret v : string) : unsign secret (sign secret v) = Some v.
Proof.
  unfold unsign, sign.
  transitivity (strip_prefix (secret ++ ".") ((secret ++ ".") ++ v));
    [|apply strip_prefix_app].
  f_equal. induction secret as [|a s IH]; simpl; [reflexivity|now rewrite IH].
Qed.

#[export] Instance runtime_laws : RuntimeLaws runtime.
Proof.
  constructor.
  - exact reference_parse_stringify.
  - exact reference_stringify_truthy.
  - exact reference_unsign_sign.
Qed.

End ReferenceFacts.

(** ** Facts about [split] and [join] *)

Lemma split_not_nil (sep : ascii) (s : string) : split sep s <> [].
Proof.
  destruct s as [|c r]; simpl; [discriminate|].
  destruct (Ascii.eqb c sep); [discriminate|].
  destruct (split sep r); discriminate.
Qed.

(** The transports string a row holds is the join of what the handlers
    split it into. *)
Lemma join_split (sep : ascii) (s : string) :
  join (String sep "") (split sep s) = s.
Proof.
  unfold join. induction s as [|c r IH]; simpl; [reflexivity|].
  pose proof (split_not_nil sep r) as Hne.
  destruct (Ascii.eqb_spec c sep) as [->|Hc];
    destruct (split sep r) as [|h t]; try contradiction; simpl in *.
  - now rewrite IH.
  - destruct t; simpl in *; now rewrite <- IH.
Qed.

Example split_transports :
  split ","%char "internal,hybrid" = ["internal"; "hybrid"]
  /\ split ","%char "" = [""]
  /\ join "," ["usb"; "nfc"; "ble"] = "usb,nfc,ble".
Proof. repeat split. Qed.

(** ** Facts about the adapter *)

Lemma findOne_id_is_id (db : Database.t) (id : string) (p : Passkey.t) :
  adapter.findOne_id db id = Some p -> Passkey.id p = id.
Proof.
  unfold adapter.findOne_id. intros H.
  apply find_some in H. now apply String.eqb_eq.
Qed.

Lemma findOne_id_update_counter (db : Database.t) (id id' : string) (c : nat) :
  adapter.findOne_id (adapter.update_counter db id' c) id =
  option_map (fun p => if Passkey.id p =? id' then Passkey.set_counter c p else p)
             (adapter.findOne_id db id).
Proof.
  unfold adapter.findOne_id, adapter.update_counter; simpl.
  induction (Database.passkey db) as [|p l IH]; simpl; [reflexivity|].
  destruct (Passkey.id p =? id') eqn:E; simpl.
  - destruct (Passkey.id p =? id); simpl; [now rewrite E | exact IH].
  - destruct (Passkey.id p =? id); simpl; [now rewrite E | exact IH].
Qed.

Lemma findOne_id_after_update (db : Database.t) (id : string) (p : Passkey.t)
    (n : nat) (sessions : list Session.t) :
  adapter.findOne_id db id = Some p ->
  adapter.findOne_id
    {| Database.passkey := Database.passkey (adapter.update_counter db (Passkey.id p) n);
       Database.session := sessions |} id
  = Some (Passkey.set_counter n p).
Proof.
  intros Hfound.
  change (adapter.findOne_id (adapter.update_counter db (Passkey.id p) n) id
          = Some (Passkey.set_counter n p)).
  rewrite findOne_id_update_counter, Hfound. cbn [option_map].
  now rewrite String.eqb_refl.
Qed.

(** ** verify-authentication and the signature counter *)

(** C1 (as amended).  For a verify-authentication request that resolves an
    origin, carries a challenge cookie that unseals, and names a stored
    credential, the outcome follows the answer of the ceremony library.
    When it reports verified, the reply is 200 with a session of the
    credential's owner and the stored credential is the old row with its
    counter replaced by the reported new counter, whatever that counter is:
    the handler does not compare it with the stored one, so the stored value
    grows exactly when the reported counter is greater.  When the library
    reports not verified the reply is 401 "verification failed", when it
    throws the reply is 400 "Authentication failed", and in both cases the
    database is left as it was. *)
Theorem C1_counter_follows_oracle
    {W : SimpleWebAuthn} {R : Runtime}
    (NODE_ENV : option string) (options : PasskeyOptions.t)
    (ctx : Context.t) (resp : AuthenticationResponseJSON.t) (db : Database.t)
    (data : WebAuthnCookieType.t) (passkey : Passkey.t) :
  truthy (resolveOrigin options ctx) = true ->
  unsealChallenge NODE_ENV options ctx = ChallengeState data ->
  adapter.findOne_id db (AuthenticationResponseJSON.id resp) = Some passkey ->
  let answer :=
    verifyAuthenticationResponse
      (authenticationVerifyRequest NODE_ENV options resp
         (WebAuthnCookieType.expectedChallenge data) (resolveOrigin options ctx) passkey) in
  let result := verifyPasskeyAuthentication NODE_ENV options ctx resp db in
  match answer with
  | Returns v =>
      let n := AuthenticationInfo.newCounter
                 (VerifiedAuthenticationResponse.authenticationInfo v) in
      if VerifiedAuthenticationResponse.verified v then
        (exists body cookie,
            fst result = Json 200 (Some body) None [cookie] /\
            Session.userId (LoginBody.session body) = Passkey.userId passkey) /\
        adapter.findOne_id (snd result) (AuthenticationResponseJSON.id resp)
          = Some (Passkey.set_counter n passkey) /\
        (Passkey.counter passkey < n <->
         exists p, adapter.findOne_id (snd result) (AuthenticationResponseJSON.id resp) = Some p
                   /\ Passkey.counter passkey < Passkey.counter p)
      else
        result = (Json 401 None (Some "verification failed") [], db)
  | Throws e =>
      result = (Json 400 None (Some "Authentication failed") [], db)
  end.
Proof.
  intros Horigin Hseal Hfound answer result.
  subst result. unfold verifyPasskeyAuthentication.
  rewrite Horigin, Hseal, Hfound. cbn [negb].
  fold answer. destruct answer as [v|e]; cbn [bind try_catch]; [|reflexivity].
  destruct (VerifiedAuthenticationResponse.verified v); cbn [negb]; [|reflexivity].
  destruct (truthy (or_else (WebAuthnCookieType.callbackURL data) ""));
    cbn [try_catch fst snd createSession].
  all: rewrite (findOne_id_after_update _ _ _ _ _ Hfound).
  all: split; [eexists _, _; split; reflexivity|].
  all: split; [reflexivity|].
  all: split;
    [intros Hlt; eexists; split; [reflexivity|exact Hlt]
    |intros [p [Hp Hlt]]; injection Hp as <-; exact Hlt].
Qed.

(** C1, counterexample.  The ceremony library reports verified together
    with a new counter that is not greater than the stored one, as it does
    for an authenticator that keeps no counter (stored 0, reported 0).  The
    request does not fail: the reply is 200, and the stored counter does not
    grow.  With stored 5 and reported 3 the reply is 200 as well and the
    stored counter goes down to 3. *)
Lemma C1_counterexample :
  adapter.findOne_id (Demo.store 0) "cred-42" = Some (Demo.credential 0) /\
  status (fst (Demo.login 0 0)) = Some 200 /\
  option_map Passkey.counter (adapter.findOne_id (snd (Demo.login 0 0)) "cred-42") = Some 0 /\
  ~ 0 < 0 /\
  adapter.findOne_id (Demo.store 5) "cred-42" = Some (Demo.credential 5) /\
  3 <= 5 /\
  status (fst (Demo.login 5 3)) = Some 200 /\
  option_map Passkey.counter (adapter.findOne_id (snd (Demo.login 5 3)) "cred-42") = Some 3.
Proof.
  repeat split; try reflexivity; lia.
Qed.

(** C1, witness: stored counter 0, reported counter 1. *)
Lemma C1_witness :
  adapter.findOne_id (snd (Demo.login 0 1)) "cred-42"
  = Some (Passkey.set_counter 1 (Demo.credential 0)).
Proof.
  pose proof
    (C1_counter_follows_oracle
       (W := Reference.webAuthn "c1" Demo.info 1) (R := Reference.runtime)
       None Demo.options (Demo.loginRequest 1 10%N) Demo.loginResponse (Demo.store 0)
       {| WebAuthnCookieType.expectedChallenge := "c1";
          WebAuthnCookieType.userData := {| UserData.id := ""; UserData.email := "" |};
          WebAuthnCookieType.callbackURL := None |}
       (Demo.credential 0) eq_refl eq_refl eq_refl) as H.
  cbv zeta in H.
  change (verifyAuthenticationResponse _) with
    (Returns {| VerifiedAuthenticationResponse.verified := true;
                VerifiedAuthenticationResponse.authenticationInfo :=
                  {| AuthenticationInfo.newCounter := 1 |} |}) in H.
  cbn [VerifiedAuthenticationResponse.verified
       VerifiedAuthenticationResponse.authenticationInfo
       AuthenticationInfo.newCounter] in H.
  exact (proj1 (proj2 H)).
Defined.

(** ** verify-registration and the sealed subject *)

(** C2 (as amended).  A verify-registration request that resolves an origin
    and whose challenge cookie unseals to a state for another user than the
    caller fails with the API error UNAUTHORIZED, and the database is left
    as it was. *)
Theorem C2_subject_mismatch_unauthorized
    {W : SimpleWebAuthn} {R : Runtime}
    (NODE_ENV : option string) (options : PasskeyOptions.t)
    (ctx : Context.t) (session : CallerSession.t)
    (resp : RegistrationResponseJSON.t) (db : Database.t)
    (data : WebAuthnCookieType.t) :
  truthy (resolveOrigin options ctx) = true ->
  unsealChallenge NODE_ENV options ctx = ChallengeState data ->
  UserData.id (WebAuthnCookieType.userData data) <> User.id (CallerSession.user session) ->
  verifyPasskeyRegistration NODE_ENV options ctx session resp db
  = (ApiError "UNAUTHORIZED" "You are not authorized to register this passkey", db).
Proof.
  intros Horigin Hseal Hid.
  unfold verifyPasskeyRegistration.
  rewrite Horigin, Hseal. cbn [negb].
  apply String.eqb_neq in Hid. now rewrite Hid.
Qed.

(** C2, counterexample.  User B presents the challenge cookie sealed for
    user A in a request without an [Origin] header, no origin being
    configured: the cookie unseals to a state whose subject is not the
    caller, and the reply is a plain 400, not UNAUTHORIZED. *)
Lemma C2_counterexample :
  (exists data,
      unsealChallenge (R := Reference.runtime) None Demo.options
        (Demo.request None Demo.registrationCookies 10%N) = ChallengeState data /\
      UserData.id (WebAuthnCookieType.userData data) = "user-A" /\
      UserData.id (WebAuthnCookieType.userData data)
      <> User.id (CallerSession.user Demo.bob)) /\
  Demo.register None Demo.bob (Some ["internal"]) = (Json 400 None None [], Demo.empty) /\
  fst (Demo.register None Demo.bob (Some ["internal"]))
  <> ApiError "UNAUTHORIZED" "You are not authorized to register this passkey".
Proof.
  split; [|split].
  - eexists. split; [reflexivity|]. split; [reflexivity|]. discriminate.
  - reflexivity.
  - discriminate.
Qed.

(** C2, witness: user B presents user A's challenge cookie with an origin. *)
Lemma C2_witness :
  Demo.register (Some "https://example.com") Demo.bob (Some ["internal"])
  = (ApiError "UNAUTHORIZED" "You are not authorized to register this passkey", Demo.empty).
Proof.
  refine
    (C2_subject_mismatch_unauthorized
       (W := Reference.webAuthn "c1" Demo.info 0) (R := Reference.runtime)
       None Demo.options (Demo.request (Some "https://example.com") Demo.registrationCookies 10%N)
       Demo.bob (Demo.registrationResponse (Some ["internal"])) Demo.empty
       {| WebAuthnCookieType.expectedChallenge := "c1";
          WebAuthnCookieType.userData :=
            {| UserData.id := "user-A"; UserData.email := "alice@example.com" |};
          WebAuthnCookieType.callbackURL := None |}
       eq_refl eq_refl _).
  discriminate.
Defined.

(** ** The failures of verify-authentication *)




(** ** The allow-list of generate-authenticate-options *)

(** C4 (as amended).  generate-authenticate-options replies 200 with the
    options the ceremony library makes from the handler's request, and sets
    the sealed challenge.  The request carries an allow-list only when the
    caller has a session and at least one stored credential; the list then
    holds, in store order, exactly the caller's stored credentials, each
    with its id and its transports split at the commas.  Without a session
    the request carries no allow-list, whatever the body holds: the e-mail
    in the body is not read. *)
Theorem C4_allow_list
    {W : SimpleWebAuthn} {R : Runtime}
    (NODE_ENV : option string) (options : PasskeyOptions.t)
    (ctx : Context.t) (session : option CallerSession.t)
    (body : option AuthenticateOptionsBody.t) (db : Database.t) :
  let request := authenticationOptionsRequest NODE_ENV options session db in
  let allow := GenerateAuthenticationOptionsOpts.allowCredentials request in
  (exists cookie,
      generatePasskeyAuthenticationOptions NODE_ENV options ctx session body db
      = (Json 200 (Some (generateAuthenticationOptions request)) None [cookie], db)) /\
  match session with
  | None => allow = None
  | Some s =>
      let own := adapter.findMany_userId db (User.id (CallerSession.user s)) in
      (own = [] -> allow = None) /\
      (own <> [] -> allow = Some (map descriptor own)) /\
      (forall d,
          In d (map descriptor own) <->
          exists p, In p (Database.passkey db) /\
                    Passkey.userId p = User.id (CallerSession.user s) /\
                    d = {| PublicKeyCredentialDescriptor.id := Passkey.id p;
                           PublicKeyCredentialDescriptor.transports :=
                             option_map (split ","%char) (Passkey.transports p) |})
  end.
Proof.
  intros request allow. subst allow request. split.
  - eexists. reflexivity.
  - unfold authenticationOptionsRequest. destruct session as [s|]; [|reflexivity].
    cbn [GenerateAuthenticationOptionsOpts.allowCredentials].
    split; [|split].
    + now intros ->.
    + destruct (adapter.findMany_userId db (User.id (CallerSession.user s)));
        [now intros H|reflexivity].
    + intros d. unfold adapter.findMany_userId. rewrite in_map_iff. split.
      * intros [p [Hd Hp]]. apply filter_In in Hp as [Hin Hu].
        exists p. split; [exact Hin|]. split; [now apply String.eqb_eq|].
        now subst d.
      * intros [p [Hin [Hu Hd]]]. exists p. split; [now subst d|].
        apply filter_In. split; [exact Hin|now apply String.eqb_eq].
Qed.

(** C4, counterexample.  The store holds a credential of user B.  A request
    without a session whose body names B's e-mail gets no allow-list, and so
    does a request of user A, who has a session but no credential. *)
Lemma C4_counterexample :
  adapter.findMany_userId (Demo.store 0) "user-B" = [Demo.credential 0] /\
  GenerateAuthenticationOptionsOpts.allowCredentials
    (snd (generateAuthenticationOptions (SimpleWebAuthn := Reference.webAuthn "c1" Demo.info 0)
            (authenticationOptionsRequest None Demo.options None (Demo.store 0)))) = None /\
  fst (generatePasskeyAuthenticationOptions
         (W := Reference.webAuthn "c1" Demo.info 0) (R := Reference.runtime)
         None Demo.options (Demo.request None [] 0%N) None Demo.emailOfB (Demo.store 0))
  = fst (generatePasskeyAuthenticationOptions
           (W := Reference.webAuthn "c1" Demo.info 0) (R := Reference.runtime)
           None Demo.options (Demo.request None [] 0%N) None None (Demo.store 0)) /\
  Demo.allowList None = None /\
  Demo.allowList (Some Demo.alice) = None.
Proof.
  repeat split; reflexivity.
Qed.

(** C4, witness: user B, who has a session and a stored credential. *)
Lemma C4_witness :
  Demo.allowList (Some Demo.bob)
  = Some [{| PublicKeyCredentialDescriptor.id := "cred-42";
             PublicKeyCredentialDescriptor.transports := Some ["internal"; "hybrid"] |}].
Proof.
  refine
    (proj1 (proj2 (proj2
       (C4_allow_list
          (W := Reference.webAuthn "c1" Demo.info 0) (R := Reference.runtime)
          None Demo.options (Demo.request None [] 0%N) (Some Demo.bob) None (Demo.store 0))))
       _).
  discriminate.
Defined.

(** ** What verify-registration persists *)

Lemma verifyPasskeyRegistration_verified
    {W : SimpleWebAuthn} {R : Runtime}
    (NODE_ENV : option string) (options : PasskeyOptions.t)
    (ctx : Context.t) (session : CallerSession.t)
    (resp : RegistrationResponseJSON.t) (db : Database.t)
    (data : WebAuthnCookieType.t) (v : VerifiedRegistrationResponse.t)
    (info : RegistrationInfo.t) :
  truthy (resolveOrigin options ctx) = true ->
  unsealChallenge NODE_ENV options ctx = ChallengeState data ->
  UserData.id (WebAuthnCookieType.userData data) = User.id (CallerSession.user session) ->
  verifyRegistrationResponse
    (registrationVerifyRequest options resp
       (WebAuthnCookieType.expectedChallenge data) (resolveOrigin options ctx)) = Returns v ->
  VerifiedRegistrationResponse.verified v = true ->
  VerifiedRegistrationResponse.registrationInfo v = Some info ->
  verifyPasskeyRegistration NODE_ENV options ctx session resp db
  = match RegistrationResponseJSON.transports resp with
    | Some ts =>
        let p := newPasskey ctx (WebAuthnCookieType.userData data) info (join "," ts) in
        (Json 200 (Some p) None [],
         {| Database.passkey := Database.passkey db ++ [p];
            Database.session := Database.session db |})
    | None => (Json 400 None (Some "Registration failed") [], db)
    end.
Proof.
  intros Horigin Hseal Hid Hanswer Hverified Hinfo.
  unfold verifyPasskeyRegistration.
  rewrite Horigin, Hseal, Hid, String.eqb_refl, Hanswer. cbn [negb bind].
  rewrite Hverified, Hinfo. unfold joinTransports.
  now destruct (RegistrationResponseJSON.transports resp).
Qed.

(** C5.  A registration whose request resolves an origin, whose challenge
    cookie unseals to a state of the caller, and which the ceremony library
    reports verified with registration info, has one of two outcomes.  When
    the response carries [transports], the reply is 200 and the store is the
    old one followed by exactly one new credential, whose counter, id and
    owner are the extracted counter, the extracted credential id and the
    caller.  When the response carries no [transports], the reply is 400
    "Registration failed" and nothing is stored. *)
Theorem C5_valid_registration_outcome
    {W : SimpleWebAuthn} {R : Runtime}
    (NODE_ENV : option string) (options : PasskeyOptions.t)
    (ctx : Context.t) (session : CallerSession.t)
    (resp : RegistrationResponseJSON.t) (db : Database.t)
    (data : WebAuthnCookieType.t) (v : VerifiedRegistrationResponse.t)
    (info : RegistrationInfo.t) :
  truthy (resolveOrigin options ctx) = true ->
  unsealChallenge NODE_ENV options ctx = ChallengeState data ->
  UserData.id (WebAuthnCookieType.userData data) = User.id (CallerSession.user session) ->
  verifyRegistrationResponse
    (registrationVerifyRequest options resp
       (WebAuthnCookieType.expectedChallenge data) (resolveOrigin options ctx)) = Returns v ->
  VerifiedRegistrationResponse.verified v = true ->
  VerifiedRegistrationResponse.registrationInfo v = Some info ->
  let result := verifyPasskeyRegistration NODE_ENV options ctx session resp db in
  match RegistrationResponseJSON.transports resp with
  | Some _ =>
      exists p,
        fst result = Json 200 (Some p) None [] /\
        Database.passkey (snd result) = Database.passkey db ++ [p] /\
        Database.session (snd result) = Database.session db /\
        Passkey.counter p = RegistrationInfo.counter info /\
        Passkey.id p = RegistrationInfo.credentialID info /\
        Passkey.userId p = User.id (CallerSession.user session)
  | None =>
      result = (Json 400 None (Some "Registration failed") [], db)
  end.
Proof.
  intros Horigin Hseal Hid Hanswer Hverified Hinfo result. subst result.
  rewrite (verifyPasskeyRegistration_verified NODE_ENV options ctx session resp db
             data v info Horigin Hseal Hid Hanswer Hverified Hinfo).
  destruct (RegistrationResponseJSON.transports resp) as [ts|]; [|reflexivity].
  eexists. cbn [fst snd Database.passkey Database.session].
  repeat split; try reflexivity. exact Hid.
Qed.

(** C5, at the failing input: user A completes the registration with a
    response the library verifies but which carries no [transports]. *)
Lemma C5_witness :
  Demo.register (Some "https://example.com") Demo.alice None
  = (Json 400 None (Some "Registration failed") [], Demo.empty).
Proof.
  exact
    (C5_valid_registration_outcome
       (W := Reference.webAuthn "c1" Demo.info 0) (R := Reference.runtime)
       None Demo.options (Demo.request (Some "https://example.com") Demo.registrationCookies 10%N)
       Demo.alice (Demo.registrationResponse None) Demo.empty
       {| WebAuthnCookieType.expectedChallenge := "c1";
          WebAuthnCookieType.userData :=
            {| UserData.id := "user-A"; UserData.email := "alice@example.com" |};
          WebAuthnCookieType.callbackURL := None |}
       {| VerifiedRegistrationResponse.verified := true;
          VerifiedRegistrationResponse.registrationInfo := Some Demo.info |}
       Demo.info eq_refl eq_refl eq_refl eq_refl eq_refl eq_refl).
Defined.

(** The same registration with [transports] stores the credential. *)
Example register_with_transports :
  exists p,
    Demo.register (Some "https://example.com") Demo.alice (Some ["internal"; "hybrid"])
    = (Json 200 (Some p) None [],
       {| Database.passkey := [p]; Database.session := [] |}) /\
    Passkey.counter p = 0 /\ Passkey.transports p = Some "internal,hybrid".
Proof. eexists. repeat split. Qed.

(** C9 (as amended).  When the ceremony response carries no [transports],
    verify-registration stores nothing, on any request.  If the request gets
    as far as the ceremony library (it resolves an origin, its challenge
    cookie unseals, and the sealed subject is the caller), the reply is 400
    whatever the library answers; when the library reports verified with
    registration info, the read of [transports] throws inside the [try]
    block, before the adapter's create, and the [catch] block replies 400
    "Registration failed". *)
Theorem C9_missing_transports
    {W : SimpleWebAuthn} {R : Runtime}
    (NODE_ENV : option string) (options : PasskeyOptions.t)
    (ctx : Context.t) (session : CallerSession.t)
    (resp : RegistrationResponseJSON.t) (db : Database.t) :
  RegistrationResponseJSON.transports resp = None ->
  let result := verifyPasskeyRegistration NODE_ENV options ctx session resp db in
  snd result = db /\
  (forall data,
      truthy (resolveOrigin options ctx) = true ->
      unsealChallenge NODE_ENV options ctx = ChallengeState data ->
      UserData.id (WebAuthnCookieType.userData data) = User.id (CallerSession.user session) ->
      status (fst result) = Some 400 /\
      (forall v info,
          verifyRegistrationResponse
            (registrationVerifyRequest options resp
               (WebAuthnCookieType.expectedChallenge data) (resolveOrigin options ctx))
          = Returns v ->
          VerifiedRegistrationResponse.verified v = true ->
          VerifiedRegistrationResponse.registrationInfo v = Some info ->
          joinTransports resp
          = Throws "TypeError: Cannot read properties of undefined (reading 'join')" /\
          fst result = Json 400 None (Some "Registration failed") [])).
Proof.
  intros Htransports result. subst result.
  unfold verifyPasskeyRegistration, joinTransports. rewrite Htransports.
  split.
  - destruct (truthy (resolveOrigin options ctx)); cbn [negb]; [|reflexivity].
    destruct (unsealChallenge NODE_ENV options ctx) as [|e|data]; try reflexivity.
    destruct (_ =? _); cbn [negb]; [|reflexivity].
    destruct (verifyRegistrationResponse _) as [v|e]; cbn [bind try_catch];
      [|reflexivity].
    destruct (VerifiedRegistrationResponse.verified v); [|reflexivity].
    now destruct (VerifiedRegistrationResponse.registrationInfo v).
  - intros data Horigin Hseal Hid.
    rewrite Horigin, Hseal, Hid, String.eqb_refl. cbn [negb].
    split.
    + destruct (verifyRegistrationResponse _) as [v|e]; cbn [bind try_catch];
        [|reflexivity].
      destruct (VerifiedRegistrationResponse.verified v); [|reflexivity].
      now destruct (VerifiedRegistrationResponse.registrationInfo v).
    + intros v info -> Hverified Hinfo. cbn [bind].
      now rewrite Hverified, Hinfo.
Qed.

(** C9, counterexample.  User B presents user A's challenge cookie with a
    response that carries no [transports]: the handler throws the API error
    UNAUTHORIZED instead of replying 400. *)
Lemma C9_counterexample :
  RegistrationResponseJSON.transports (Demo.registrationResponse None) = None /\
  Demo.register (Some "https://example.com") Demo.bob None
  = (ApiError "UNAUTHORIZED" "You are not authorized to register this passkey", Demo.empty) /\
  status (fst (Demo.register (Some "https://example.com") Demo.bob None)) <> Some 400.
Proof.
  split; [reflexivity|]. split; [reflexivity|discriminate].
Qed.

(** C9, witness: user A's verified response without [transports]. *)
Lemma C9_witness :
  snd (Demo.register (Some "https://example.com") Demo.alice None) = Demo.empty /\
  fst (Demo.register (Some "https://example.com") Demo.alice None)
  = Json 400 None (Some "Registration failed") [].
Proof.
  pose proof
    (C9_missing_transports
       (W := Reference.webAuthn "c1" Demo.info 0) (R := Reference.runtime)
       None Demo.options (Demo.request (Some "https://example.com") Demo.registrationCookies 10%N)
       Demo.alice (Demo.registrationResponse None) Demo.empty eq_refl) as [Hdb Hreply].
  split; [exact Hdb|].
  exact
    (proj2
       (proj2
          (Hreply
             {| WebAuthnCookieType.expectedChallenge := "c1";
                WebAuthnCookieType.userData :=
                  {| UserData.id := "user-A"; UserData.email := "alice@example.com" |};
                WebAuthnCookieType.callbackURL := None |}
             eq_refl eq_refl eq_refl)
          {| VerifiedRegistrationResponse.verified := true;
             VerifiedRegistrationResponse.registrationInfo := Some Demo.info |}
          Demo.info eq_refl eq_refl eq_refl)).
Defined.

(** ** The challenge cookie *)

(** C6.  Under a runtime that meets its laws, a request that holds the same
    server secret and presents the cookie a handler set when it sealed a
    challenge state unseals to that very state, at whatever time it is
    sent. *)
Theorem C6_unseal_seal
    {R : Runtime} {L : RuntimeLaws R}
    (NODE_ENV : option string) (options : PasskeyOptions.t)
    (ctx ctx' : Context.t) (data : WebAuthnCookieType.t) :
  Context.secret ctx' = Context.secret ctx ->
  lookup (SetCookie.name (sealChallenge NODE_ENV options ctx data)) (Context.cookies ctx')
  = Some (SetCookie.value (sealChallenge NODE_ENV options ctx data)) ->
  unsealChallenge NODE_ENV options ctx' = ChallengeState data.
Proof.
  intros Hsecret Hsent.
  unfold unsealChallenge, getSignedCookie.
  unfold sealChallenge, setSignedCookie in Hsent.
  cbn [SetCookie.name SetCookie.value] in Hsent.
  rewrite Hsent, Hsecret, unsign_sign, stringify_truthy, parse_stringify.
  reflexivity.
Qed.

(** C6, witness: a state with a redirect target under the reference
    runtime. *)
Lemma C6_witness :
  unsealChallenge (R := Reference.runtime) None Demo.options
    (Demo.request (Some "https://example.com") (sentBack [Demo.sealed]) 10%N)
  = ChallengeState Demo.state.
Proof.
  exact
    (C6_unseal_seal (R := Reference.runtime) (L := ReferenceFacts.runtime_laws)
       None Demo.options (Demo.request None [] 0%N)
       (Demo.request (Some "https://example.com") (sentBack [Demo.sealed]) 10%N)
       Demo.state eq_refl eq_refl).
Defined.

(** C7 (as amended).  A verify request without a challenge cookie, which is
    what a user agent sends once the cookie's max-age has passed, and a
    verify request whose challenge cookie fails the signature check get the
    same reply from either verifying endpoint: 400 with a null body, no
    message and no cookie, the database being left as it was. *)
Theorem C7_missing_and_forged_alike
    {W : SimpleWebAuthn} {R : Runtime}
    (NODE_ENV : option string) (options : PasskeyOptions.t)
    (gone forged : Context.t) (session : CallerSession.t)
    (registration : RegistrationResponseJSON.t)
    (authentication : AuthenticationResponseJSON.t) (db : Database.t) :
  getSignedCookie gone (Opts.webAuthnChallengeCookie (opts NODE_ENV options))
                  (Context.secret gone) = CookieUndefined ->
  getSignedCookie forged (Opts.webAuthnChallengeCookie (opts NODE_ENV options))
                  (Context.secret forged) = CookieFalse ->
  verifyPasskeyRegistration NODE_ENV options gone session registration db
  = (Json 400 None None [], db) /\
  verifyPasskeyRegistration NODE_ENV options forged session registration db
  = (Json 400 None None [], db) /\
  verifyPasskeyAuthentication NODE_ENV options gone authentication db
  = (Json 400 None None [], db) /\
  verifyPasskeyAuthentication NODE_ENV options forged authentication db
  = (Json 400 None None [], db).
Proof.
  intros Hgone Hforged.
  unfold verifyPasskeyRegistration, verifyPasskeyAuthentication, unsealChallenge.
  rewrite Hgone, Hforged.
  destruct (truthy (resolveOrigin options gone));
    destruct (truthy (resolveOrigin options forged)); repeat split.
Qed.

(** C7, counterexample.  The challenge cookie set at time 0 has a max-age
    of 86400 seconds.  Presented at time 100000 it is still unsealed and the
    login succeeds with 200, whereas a cookie with a wrong signature is
    answered 400: the handlers make no check of the age of the token. *)
Lemma C7_counterexample :
  map (fun c => expired c 0%N 100000%N) (Demo.challengeSet "c1" 1) = [true] /\
  status (fst (Demo.loginAt 100000%N (sentBack (Demo.challengeSet "c1" 1)))) = Some 200 /\
  status (fst (Demo.loginAt 100000%N Demo.forgedCookies)) = Some 400.
Proof.
  repeat split; reflexivity.
Qed.

(** C7, witness: no cookie and a forged cookie. *)
Lemma C7_witness :
  Demo.loginAt 10%N [] = (Json 400 None None [], Demo.store 0) /\
  Demo.loginAt 10%N Demo.forgedCookies = (Json 400 None None [], Demo.store 0).
Proof.
  pose proof
    (C7_missing_and_forged_alike
       (W := Reference.webAuthn "c1" Demo.info 1) (R := Reference.runtime)
       None Demo.options
       (Demo.request (Some "https://example.com") [] 10%N)
       (Demo.request (Some "https://example.com") Demo.forgedCookies 10%N)
       Demo.alice (Demo.registrationResponse None) Demo.loginResponse (Demo.store 0)
       eq_refl eq_refl) as H.
  exact (conj (proj1 (proj2 (proj2 H))) (proj2 (proj2 (proj2 H)))).
Defined.

(** ** One cookie for both ceremonies *)

Lemma unsealChallenge_sentBack
    {R : Runtime} {L : RuntimeLaws R}
    (NODE_ENV : option string) (options : PasskeyOptions.t)
    (ctx0 ctx : Context.t) (data : WebAuthnCookieType.t) :
  Context.secret ctx = Context.secret ctx0 ->
  Context.cookies ctx = sentBack [sealChallenge NODE_ENV options ctx0 data] ->
  unsealChallenge NODE_ENV options ctx = ChallengeState data.
Proof.
  intros Hsecret Hcookies.
  unfold unsealChallenge, getSignedCookie.
  rewrite Hcookies. unfold sentBack, sealChallenge, setSignedCookie.
  cbn [map lookup SetCookie.name SetCookie.value].
  rewrite String.eqb_refl, Hsecret, unsign_sign, stringify_truthy, parse_stringify.
  reflexivity.
Qed.

(** C8.  The two issuing endpoints set their challenge state through the
    same cookie: same name, same attributes, the state serialised and signed
    the same way under the server secret.  Under a runtime that meets its
    laws, a request that presents the cookie of generate-register-options
    passes the unseal step of verify-authentication, which, for a request
    that resolves an origin, then goes on to the credential lookup (401 for
    an unknown credential id).  A request
    that presents the cookie of generate-authenticate-options passes the
    unseal step of verify-registration; what follows, for a request that
    resolves an origin, is the subject check alone: UNAUTHORIZED when the sealed subject is not the caller, and
    otherwise the ceremony library is asked about the authentication
    challenge, and a response it verifies is enrolled. *)
Theorem C8_tokens_cross_flows
    {W : SimpleWebAuthn} {R : Runtime} {L : RuntimeLaws R}
    (NODE_ENV : option string) (options : PasskeyOptions.t)
    (ctx0 ctx : Context.t) (session : CallerSession.t)
    (anySession : option CallerSession.t) (body : option AuthenticateOptionsBody.t)
    (db0 : Database.t) :
  Context.secret ctx = Context.secret ctx0 ->
  let registration :=
    setCookies (fst (generatePasskeyRegistrationOptions NODE_ENV options ctx0 session db0)) in
  let authentication :=
    setCookies
      (fst (generatePasskeyAuthenticationOptions NODE_ENV options ctx0 anySession body db0)) in
  map SetCookie.name registration = map SetCookie.name authentication /\
  map SetCookie.options registration = map SetCookie.options authentication /\
  (Context.cookies ctx = sentBack registration ->
   exists data,
     unsealChallenge NODE_ENV options ctx = ChallengeState data /\
     UserData.id (WebAuthnCookieType.userData data) = User.id (CallerSession.user session) /\
     forall resp db,
       truthy (resolveOrigin options ctx) = true ->
       adapter.findOne_id db (AuthenticationResponseJSON.id resp) = None ->
       verifyPasskeyAuthentication NODE_ENV options ctx resp db
       = (Json 401 None (Some "Passkey not found") [], db)) /\
  (Context.cookies ctx = sentBack authentication ->
   exists data,
     unsealChallenge NODE_ENV options ctx = ChallengeState data /\
     WebAuthnCookieType.expectedChallenge data
     = request_challenge
         (generateAuthenticationOptions
            (authenticationOptionsRequest NODE_ENV options anySession db0)) /\
     forall caller resp db,
       truthy (resolveOrigin options ctx) = true ->
       (UserData.id (WebAuthnCookieType.userData data) <> User.id (CallerSession.user caller) ->
        verifyPasskeyRegistration NODE_ENV options ctx caller resp db
        = (ApiError "UNAUTHORIZED" "You are not authorized to register this passkey", db)) /\
       (forall v info ts,
           UserData.id (WebAuthnCookieType.userData data) = User.id (CallerSession.user caller) ->
           verifyRegistrationResponse
             (registrationVerifyRequest options resp
                (WebAuthnCookieType.expectedChallenge data) (resolveOrigin options ctx))
           = Returns v ->
           VerifiedRegistrationResponse.verified v = true ->
           VerifiedRegistrationResponse.registrationInfo v = Some info ->
           RegistrationResponseJSON.transports resp = Some ts ->
           exists p,
             verifyPasskeyRegistration NODE_ENV options ctx caller resp db
             = (Json 200 (Some p) None [],
                {| Database.passkey := Database.passkey db ++ [p];
                   Database.session := Database.session db |}))).
Proof.
  intros Hsecret registration authentication.
  subst registration authentication.
  unfold generatePasskeyRegistrationOptions, generatePasskeyAuthenticationOptions.
  cbn [fst setCookies].
  split; [reflexivity|]. split; [reflexivity|]. split.
  - intros Hcookies. eexists. split.
    + exact (unsealChallenge_sentBack NODE_ENV options ctx0 ctx _ Hsecret Hcookies).
    + split; [reflexivity|].
      intros resp db Horigin Hnone. unfold verifyPasskeyAuthentication.
      rewrite Horigin,
        (unsealChallenge_sentBack NODE_ENV options ctx0 ctx _ Hsecret Hcookies), Hnone.
      reflexivity.
  - intros Hcookies.
    pose proof (unsealChallenge_sentBack NODE_ENV options ctx0 ctx _ Hsecret Hcookies)
      as Hseal.
    eexists. split; [exact Hseal|]. split; [reflexivity|].
    intros caller resp db Horigin. split.
    + intros Hid. unfold verifyPasskeyRegistration.
      rewrite Horigin, Hseal. cbn [negb].
      apply String.eqb_neq in Hid. now rewrite Hid.
    + intros v info ts Hid Hanswer Hverified Hinfo Hts.
      rewrite (verifyPasskeyRegistration_verified NODE_ENV options ctx caller resp db
                 _ v info Horigin Hseal Hid Hanswer Hverified Hinfo), Hts.
      eexists. reflexivity.
Qed.

(** C8, witness: the cookie of user A's generate-register-options request,
    presented to verify-authentication. *)
Lemma C8_witness :
  Demo.loginUnknown (Some "https://example.com") Demo.registrationCookies
  = (Json 401 None (Some "Passkey not found") [], Demo.store 0).
Proof.
  destruct
    (proj1 (proj2 (proj2
       (C8_tokens_cross_flows
          (W := Reference.webAuthn "c1" Demo.info 1) (R := Reference.runtime)
          (L := ReferenceFacts.runtime_laws)
          None Demo.options (Demo.request None [] 0)
          (Demo.request (Some "https://example.com") Demo.registrationCookies 10)
          Demo.alice None None Demo.empty eq_refl)))
       eq_refl) as [data [_ [_ Hlogin]]].
  exact (Hlogin Demo.unknownCredential (Demo.store 0) eq_refl eq_refl).
Defined.

(** A login with the cookie of a registration ceremony goes through. *)
Example login_with_registration_cookie :
  status (fst (Demo.loginAt 10 Demo.registrationCookies)) = Some 200.
Proof. reflexivity. Qed.

(** ** The relying-party id *)

(** The authentication endpoints read the relying-party id from [opts]
    when they issue and when they verify. *)
Lemma authentication_rpID_agrees
    {R : Runtime} (NODE_ENV : option string) (options : PasskeyOptions.t)
    (session : option CallerSession.t) (db : Database.t)
    (resp : AuthenticationResponseJSON.t) (challenge origin : string)
    (passkey : Passkey.t) :
  GenerateAuthenticationOptionsOpts.rpID
    (authenticationOptionsRequest NODE_ENV options session db)
  = VerifyAuthenticationResponseOpts.expectedRPID
      (authenticationVerifyRequest NODE_ENV options resp challenge origin passkey).
Proof. reflexivity. Qed.

(** C10.  generate-register-options hands the library the relying-party id
    of [opts], which is localhost under NODE_ENV=development; verify-
    registration hands it the relying-party id of [options] as configured.
    The two agree exactly when the development override is off or the
    configured id is localhost itself. *)
Theorem C10_registration_rpID
    (NODE_ENV : option string) (options : PasskeyOptions.t)
    (ctx : Context.t) (session : CallerSession.t) (db : Database.t)
    (resp : RegistrationResponseJSON.t) (challenge origin : string) :
  let issued :=
    GenerateRegistrationOptionsOpts.rpID
      (registrationOptionsRequest NODE_ENV options ctx session db) in
  let expected :=
    VerifyRegistrationResponseOpts.expectedRPID
      (registrationVerifyRequest options resp challenge origin) in
  issued = (if isDevelopment NODE_ENV then "localhost" else PasskeyOptions.rpID options) /\
  expected = PasskeyOptions.rpID options /\
  (issued = expected <->
   isDevelopment NODE_ENV = false \/ PasskeyOptions.rpID options = "localhost").
Proof.
  cbn. split; [reflexivity|]. split; [reflexivity|].
  destruct (isDevelopment NODE_ENV); split.
  - intros H. right. now symmetry.
  - intros [H|H]; [discriminate|now symmetry].
  - now left.
  - reflexivity.
Qed.

(** C10, at the failing input: NODE_ENV=development and the relying-party
    id example.com. *)
Example C10_development_rpID_differs :
  GenerateRegistrationOptionsOpts.rpID
    (registrationOptionsRequest (Some "development") Demo.options
       (Demo.request None [] 0) Demo.alice Demo.empty) = "localhost" /\
  VerifyRegistrationResponseOpts.expectedRPID
    (registrationVerifyRequest Demo.options (Demo.registrationResponse None) "c1"
       "https://example.com") = "example.com" /\
  "localhost" <> "example.com".
Proof. repeat split. discriminate. Qed.

(** * Further properties of the passkey endpoints *)

(** ** The origin guard *)

Lemma or_else_empty (a : option string) :
  or_else a "" = "" <-> a = None \/ a = Some "".
Proof.
  destruct a as [s|]; simpl.
  - destruct s as [|c r]; simpl.
    + split; [now right|reflexivity].
    + split; [discriminate|]. now intros [H|H].
  - split; [now left|reflexivity].
Qed.

Lemma truthy_false (s : string) : truthy s = false <-> s = "".
Proof.
  unfold truthy. destruct s; simpl; split; intros H; congruence.
Qed.

(** X1.  The origin the verifying endpoints work with is the configured
    one when that is a non-empty string, whatever the request says, and the
    [Origin] header otherwise.  It is empty exactly when neither is a
    non-empty string, and then both verifying endpoints reply 400 with a
    null body and leave the database as it was, whatever cookie and
    response the request carries. *)
Theorem X1_origin_resolution
    {W : SimpleWebAuthn} {R : Runtime}
    (NODE_ENV : option string) (options : PasskeyOptions.t) (ctx : Context.t) :
  (forall o, PasskeyOptions.origin options = Some o -> o <> "" ->
             resolveOrigin options ctx = o) /\
  (forall h, or_else (PasskeyOptions.origin options) "" = "" ->
             Context.header_origin ctx = Some h -> resolveOrigin options ctx = h) /\
  (truthy (resolveOrigin options ctx) = false <->
   or_else (PasskeyOptions.origin options) "" = ""
   /\ or_else (Context.header_origin ctx) "" = "") /\
  (truthy (resolveOrigin options ctx) = false ->
   forall session registration authentication db,
     verifyPasskeyRegistration NODE_ENV options ctx session registration db
     = (Json 400 None None [], db) /\
     verifyPasskeyAuthentication NODE_ENV options ctx authentication db
     = (Json 400 None None [], db)).
Proof.
  split; [|split; [|split]].
  - intros o Ho Hne. unfold resolveOrigin. rewrite Ho. simpl.
    apply String.eqb_neq in Hne. unfold truthy. now rewrite Hne.
  - intros h Hc Hh. unfold resolveOrigin. rewrite Hh.
    apply or_else_empty in Hc as [-> | ->]; simpl; now destruct h.
  - unfold resolveOrigin. rewrite truthy_false. split.
    + intros H.
      destruct (PasskeyOptions.origin options) as [[|c o]|]; simpl in *;
        try discriminate; now split.
    + intros [Hc Hh]. apply or_else_empty in Hc as [-> | ->]; simpl; exact Hh.
  - intros H session registration authentication db.
    unfold verifyPasskeyRegistration, verifyPasskeyAuthentication.
    now rewrite H.
Qed.

(** ** What the verifying endpoints may change *)

(** X2.  verify-registration, on any request: it creates no session and
    sets no cookie; a reply that is not a 200 leaves the database as it
    was; a 200 reply carries the one row that was appended to the store,
    and that row belongs to the caller, was built from a response that
    carries [transports], holds them joined by commas, and is stamped with
    the time and the random handle of the request. *)
Theorem X2_registration_effects
    {W : SimpleWebAuthn} {R : Runtime}
    (NODE_ENV : option string) (options : PasskeyOptions.t)
    (ctx : Context.t) (session : CallerSession.t)
    (resp : RegistrationResponseJSON.t) (db : Database.t) :
  let result := verifyPasskeyRegistration NODE_ENV options ctx session resp db in
  Database.session (snd result) = Database.session db /\
  setCookies (fst result) = [] /\
  (status (fst result) <> Some 200 -> snd result = db) /\
  (status (fst result) = Some 200 ->
   exists p ts,
     fst result = Json 200 (Some p) None [] /\
     Database.passkey (snd result) = Database.passkey db ++ [p] /\
     Passkey.userId p = User.id (CallerSession.user session) /\
     RegistrationResponseJSON.transports resp = Some ts /\
     Passkey.transports p = Some (join "," ts) /\
     Passkey.createdAt p = Context.now ctx /\
     Passkey.webauthnUserID p = Context.randomString ctx).
Proof.
  intros result. subst result. unfold verifyPasskeyRegistration.
  destruct (truthy (resolveOrigin options ctx)); cbn [negb];
    [|repeat split; try reflexivity; discriminate].
  destruct (unsealChallenge NODE_ENV options ctx) as [|e|data];
    [repeat split; try reflexivity; discriminate..|].
  destruct (String.eqb_spec (UserData.id (WebAuthnCookieType.userData data))
              (User.id (CallerSession.user session))) as [Hid|Hid]; cbn [negb];
    [|repeat split; try reflexivity; discriminate].
  destruct (verifyRegistrationResponse _) as [v|e]; cbn [bind try_catch];
    [|repeat split; try reflexivity; discriminate].
  destruct (VerifiedRegistrationResponse.verified v);
    [|repeat split; try reflexivity; discriminate].
  destruct (VerifiedRegistrationResponse.registrationInfo v) as [info|];
    [|repeat split; try reflexivity; discriminate].
  unfold joinTransports.
  destruct (RegistrationResponseJSON.transports resp) as [ts|]; cbn [bind try_catch];
    [|repeat split; try reflexivity; discriminate].
  cbn [adapter.create fst snd status setCookies Database.session].
  split; [reflexivity|]. split; [reflexivity|]. split; [now intros H|].
  intros _. eexists _, ts. repeat split. exact Hid.
Qed.

Lemma map_set_counter_update (l : list Passkey.t) (id : string) (n : nat) :
  map (Passkey.set_counter 0)
      (map (fun p => if Passkey.id p =? id then Passkey.set_counter n p else p) l)
  = map (Passkey.set_counter 0) l.
Proof.
  induction l as [|p l IH]; simpl; [reflexivity|].
  rewrite IH. now destruct (Passkey.id p =? id).
Qed.

Lemma filter_other_update (l : list Passkey.t) (id : string) (n : nat) :
  filter (fun p => negb (Passkey.id p =? id))
         (map (fun p => if Passkey.id p =? id then Passkey.set_counter n p else p) l)
  = filter (fun p => negb (Passkey.id p =? id)) l.
Proof.
  induction l as [|p l IH]; simpl; [reflexivity|].
  destruct (Passkey.id p =? id) eqn:E; simpl; rewrite E; simpl; now rewrite IH.
Qed.

(** X3.  verify-authentication, on any request: the store keeps its rows
    in number and order, with every field but the counter as it was, and
    the rows of other credential ids are untouched, counter included.  A
    200 reply means that the claimed credential id was stored, that exactly
    one session was added, for the owner of that credential, and that the
    only cookie set is the session token: the session id, signed with the
    server secret, under the configured name and attributes. *)
Theorem X3_authentication_effects
    {W : SimpleWebAuthn} {R : Runtime}
    (NODE_ENV : option string) (options : PasskeyOptions.t)
    (ctx : Context.t) (resp : AuthenticationResponseJSON.t) (db : Database.t) :
  let result := verifyPasskeyAuthentication NODE_ENV options ctx resp db in
  let other := fun p => negb (Passkey.id p =? AuthenticationResponseJSON.id resp) in
  map (Passkey.set_counter 0) (Database.passkey (snd result))
  = map (Passkey.set_counter 0) (Database.passkey db) /\
  filter other (Database.passkey (snd result)) = filter other (Database.passkey db) /\
  (status (fst result) = Some 200 ->
   exists passkey body,
     adapter.findOne_id db (AuthenticationResponseJSON.id resp) = Some passkey /\
     fst result
     = Json 200 (Some body) None
         [setSignedCookie (Context.sessionTokenName ctx) (Context.newSessionId ctx)
            (Context.secret ctx) (Context.sessionTokenOptions ctx)] /\
     Session.userId (LoginBody.session body) = Passkey.userId passkey /\
     Session.id (LoginBody.session body) = Context.newSessionId ctx /\
     Database.session (snd result) = Database.session db ++ [LoginBody.session body]).
Proof.
  intros result other. subst result other. unfold verifyPasskeyAuthentication.
  destruct (truthy (resolveOrigin options ctx)); cbn [negb];
    [|repeat split; try reflexivity; discriminate].
  destruct (unsealChallenge NODE_ENV options ctx) as [|e|data];
    [repeat split; try reflexivity; discriminate..|].
  destruct (adapter.findOne_id db (AuthenticationResponseJSON.id resp))
    as [passkey|] eqn:Hfound; [|repeat split; try reflexivity; discriminate].
  destruct (verifyAuthenticationResponse _) as [v|e]; cbn [bind try_catch];
    [|repeat split; try reflexivity; discriminate].
  destruct (VerifiedAuthenticationResponse.verified v); cbn [negb];
    [|repeat split; try reflexivity; discriminate].
  rewrite (findOne_id_is_id _ _ _ Hfound).
  cbn [createSession].
  destruct (truthy (or_else (WebAuthnCookieType.callbackURL data) ""));
    cbn [try_catch fst snd status Database.passkey Database.session
         adapter.update_counter].
  all: split; [apply map_set_counter_update|].
  all: split; [apply filter_other_update|].
  all: intros _; eexists _, _; split; [reflexivity|]; split; [reflexivity|];
    split; [reflexivity|]; split; reflexivity.
Qed.

(** ** A whole ceremony *)

(** The reply and the database after a login the library verifies. *)
Lemma verifyPasskeyAuthentication_verified
    {W : SimpleWebAuthn} {R : Runtime}
    (NODE_ENV : option string) (options : PasskeyOptions.t)
    (ctx : Context.t) (resp : AuthenticationResponseJSON.t) (db : Database.t)
    (data : WebAuthnCookieType.t) (passkey : Passkey.t)
    (v : VerifiedAuthenticationResponse.t) :
  truthy (resolveOrigin options ctx) = true ->
  unsealChallenge NODE_ENV options ctx = ChallengeState data ->
  adapter.findOne_id db (AuthenticationResponseJSON.id resp) = Some passkey ->
  verifyAuthenticationResponse
    (authenticationVerifyRequest NODE_ENV options resp
       (WebAuthnCookieType.expectedChallenge data) (resolveOrigin options ctx) passkey)
  = Returns v ->
  VerifiedAuthenticationResponse.verified v = true ->
  let s := {| Session.id := Context.newSessionId ctx;
              Session.userId := Passkey.userId passkey |} in
  let redirect := truthy (or_else (WebAuthnCookieType.callbackURL data) "") in
  verifyPasskeyAuthentication NODE_ENV options ctx resp db
  = (Json 200
       (Some {| LoginBody.url :=
                  if redirect then WebAuthnCookieType.callbackURL data else None;
                LoginBody.redirect := redirect;
                LoginBody.session := s |})
       None
       [setSignedCookie (Context.sessionTokenName ctx) (Context.newSessionId ctx)
          (Context.secret ctx) (Context.sessionTokenOptions ctx)],
     {| Database.passkey :=
          Database.passkey
            (adapter.update_counter db (Passkey.id passkey)
               (AuthenticationInfo.newCounter
                  (VerifiedAuthenticationResponse.authenticationInfo v)));
        Database.session := Database.session db ++ [s] |}).
Proof.
  intros Horigin Hseal Hfound Hanswer Hverified s redirect. subst s redirect.
  unfold verifyPasskeyAuthentication.
  rewrite Horigin, Hseal, Hfound, Hanswer. cbn [negb bind].
  rewrite Hverified. cbn [negb createSession].
  now destruct (truthy (or_else (WebAuthnCookieType.callbackURL data) "")).
Qed.

(** X4.  A login from the challenge of generate-authenticate-options, under
    a runtime that meets its laws.  Whoever asked for the options, with or
    without a session, the request that presents their cookie, names a
    stored credential and is verified against the issued challenge logs in
    the owner of that credential.  The redirect target of the options
    request comes back untouched with [redirect: true] when it is a
    non-empty string; an absent or empty target gives the session alone. *)
Theorem X4_login_carries_redirect
    {W : SimpleWebAuthn} {R : Runtime} {L : RuntimeLaws R}
    (NODE_ENV : option string) (options : PasskeyOptions.t)
    (ctx0 ctx : Context.t) (issuedTo : option CallerSession.t)
    (body : option AuthenticateOptionsBody.t) (db0 db : Database.t)
    (resp : AuthenticationResponseJSON.t) (passkey : Passkey.t)
    (v : VerifiedAuthenticationResponse.t) :
  let target :=
    match body with
    | Some b => AuthenticateOptionsBody.callbackURL b
    | None => None
    end in
  let challenge :=
    request_challenge
      (generateAuthenticationOptions
         (authenticationOptionsRequest NODE_ENV options issuedTo db0)) in
  Context.secret ctx = Context.secret ctx0 ->
  Context.cookies ctx
  = sentBack
      (setCookies
         (fst (generatePasskeyAuthenticationOptions NODE_ENV options ctx0 issuedTo body db0))) ->
  truthy (resolveOrigin options ctx) = true ->
  adapter.findOne_id db (AuthenticationResponseJSON.id resp) = Some passkey ->
  verifyAuthenticationResponse
    (authenticationVerifyRequest NODE_ENV options resp challenge
       (resolveOrigin options ctx) passkey) = Returns v ->
  VerifiedAuthenticationResponse.verified v = true ->
  exists cookie,
    fst (verifyPasskeyAuthentication NODE_ENV options ctx resp db)
    = Json 200
        (Some {| LoginBody.url := if truthy (or_else target "") then target else None;
                 LoginBody.redirect := truthy (or_else target "");
                 LoginBody.session :=
                   {| Session.id := Context.newSessionId ctx;
                      Session.userId := Passkey.userId passkey |} |})
        None [cookie].
Proof.
  intros target challenge Hsecret Hcookies Horigin Hfound Hanswer Hverified.
  pose proof (unsealChallenge_sentBack NODE_ENV options ctx0 ctx _ Hsecret Hcookies)
    as Hseal.
  rewrite (verifyPasskeyAuthentication_verified NODE_ENV options ctx resp db _ passkey v
             Horigin Hseal Hfound Hanswer Hverified).
  eexists. reflexivity.
Qed.

(** X4, witness: an anonymous options request with the redirect target
    /dashboard, and the login with cred-42 that follows. *)
Lemma X4_witness :
  exists cookie,
    fst Scenario.loginWithRedirect
    = Json 200
        (Some {| LoginBody.url := Some "/dashboard";
                 LoginBody.redirect := true;
                 LoginBody.session :=
                   {| Session.id := "session-1"; Session.userId := "user-B" |} |})
        None [cookie].
Proof.
  exact
    (X4_login_carries_redirect
       (W := Reference.webAuthn "c1" Demo.info 1) (R := Reference.runtime)
       (L := ReferenceFacts.runtime_laws)
       None Demo.options (Demo.request None [] 0)
       (Demo.request Scenario.origin Scenario.redirectCookies 10)
       None Scenario.dashboard Demo.empty (Demo.store 0)
       Demo.loginResponse (Demo.credential 0)
       {| VerifiedAuthenticationResponse.verified := true;
          VerifiedAuthenticationResponse.authenticationInfo :=
            {| AuthenticationInfo.newCounter := 1 |} |}
       eq_refl eq_refl eq_refl eq_refl eq_refl eq_refl).
Defined.

(** X5.  A registration from the challenge of generate-register-options,
    under a runtime that meets its laws.  When the caller who asked for the
    options presents their cookie with a response that carries [transports]
    and that the library verifies against the issued challenge, the reply
    is 200 and the store gains exactly one row: the extracted credential id,
    public key (in base64), counter, device type and backup flag, owned by
    the caller. *)
Theorem X5_registration_ceremony
    {W : SimpleWebAuthn} {R : Runtime} {L : RuntimeLaws R}
    (NODE_ENV : option string) (options : PasskeyOptions.t)
    (ctx0 ctx : Context.t) (session : CallerSession.t) (db0 db : Database.t)
    (resp : RegistrationResponseJSON.t) (ts : list string)
    (v : VerifiedRegistrationResponse.t) (info : RegistrationInfo.t) :
  let challenge :=
    creation_challenge
      (generateRegistrationOptions
         (registrationOptionsRequest NODE_ENV options ctx0 session db0)) in
  Context.secret ctx = Context.secret ctx0 ->
  Context.cookies ctx
  = sentBack
      (setCookies
         (fst (generatePasskeyRegistrationOptions NODE_ENV options ctx0 session db0))) ->
  truthy (resolveOrigin options ctx) = true ->
  verifyRegistrationResponse
    (registrationVerifyRequest options resp challenge (resolveOrigin options ctx))
  = Returns v ->
  VerifiedRegistrationResponse.verified v = true ->
  VerifiedRegistrationResponse.registrationInfo v = Some info ->
  RegistrationResponseJSON.transports resp = Some ts ->
  let p :=
    {| Passkey.id := RegistrationInfo.credentialID info;
       Passkey.publicKey := toBase64 (RegistrationInfo.credentialPublicKey info);
       Passkey.userId := User.id (CallerSession.user session);
       Passkey.webauthnUserID := Context.randomString ctx;
       Passkey.counter := RegistrationInfo.counter info;
       Passkey.deviceType := RegistrationInfo.credentialDeviceType info;
       Passkey.backedUp := RegistrationInfo.credentialBackedUp info;
       Passkey.transports := Some (join "," ts);
       Passkey.createdAt := Context.now ctx |} in
  verifyPasskeyRegistration NODE_ENV options ctx session resp db
  = (Json 200 (Some p) None [],
     {| Database.passkey := Database.passkey db ++ [p];
        Database.session := Database.session db |}).
Proof.
  intros challenge Hsecret Hcookies Horigin Hanswer Hverified Hinfo Hts p.
  pose proof (unsealChallenge_sentBack NODE_ENV options ctx0 ctx _ Hsecret Hcookies)
    as Hseal.
  rewrite (verifyPasskeyRegistration_verified NODE_ENV options ctx session resp db
             _ v info Horigin Hseal eq_refl Hanswer Hverified Hinfo), Hts.
  reflexivity.
Qed.

(** X5, witness: user A's registration with two transports. *)
Lemma X5_witness :
  Demo.register Scenario.origin Demo.alice (Some ["internal"; "hybrid"])
  = (Json 200 (Some Scenario.enrolled) None [], Scenario.afterEnrolment).
Proof.
  exact
    (X5_registration_ceremony
       (W := Reference.webAuthn "c1" Demo.info 0) (R := Reference.runtime)
       (L := ReferenceFacts.runtime_laws)
       None Demo.options (Demo.request None [] 0)
       (Demo.request Scenario.origin Demo.registrationCookies 10)
       Demo.alice Demo.empty Demo.empty
       (Demo.registrationResponse (Some ["internal"; "hybrid"])) ["internal"; "hybrid"]
       {| VerifiedRegistrationResponse.verified := true;
          VerifiedRegistrationResponse.registrationInfo := Some Demo.info |}
       Demo.info eq_refl eq_refl eq_refl eq_refl eq_refl eq_refl eq_refl).
Defined.

(** ** Transports, stored and read back *)

Lemma split_comma_free (t : string) :
  comma_free t = true -> split ","%char t = [t].
Proof.
  induction t as [|c r IH]; simpl; [reflexivity|].
  intros H. apply andb_prop in H as [Hc Hr].
  apply negb_true_iff in Hc. rewrite Hc, (IH Hr). reflexivity.
Qed.

Lemma split_comma_free_app (t r : string) :
  comma_free t = true ->
  split ","%char (t ++ String ","%char r) = t :: split ","%char r.
Proof.
  induction t as [|c t IH]; simpl; [reflexivity|].
  intros H. apply andb_prop in H as [Hc Ht].
  apply negb_true_iff in Hc. rewrite Hc, (IH Ht). reflexivity.
Qed.

Lemma split_join (ts : list string) :
  ts <> [] -> forallb comma_free ts = true ->
  split ","%char (join "," ts) = ts.
Proof.
  unfold join. induction ts as [|t ts IH]; [now intros H|].
  intros _ H. cbn [forallb] in H. apply andb_prop in H as [Ht Hts].
  destruct ts as [|t' ts].
  - simpl. now apply split_comma_free.
  - change (String.concat "," (t :: t' :: ts))
      with (t ++ String ","%char (String.concat "," (t' :: ts)))%string.
    rewrite (split_comma_free_app _ _ Ht), IH; [reflexivity|discriminate|exact Hts].
Qed.

(** X7.  The transports of a response, none of which holds a comma, are
    stored joined by commas and read back by the issuing endpoints and by
    verify-authentication as the same list, with one exception: an empty
    list is stored as the empty string and read back as a list that holds
    one empty transport. *)
Theorem X7_transports_round_trip
    {R : Runtime} (ctx : Context.t) (userData : UserData.t)
    (info : RegistrationInfo.t) (ts : list string) :
  forallb comma_free ts = true ->
  splitTransports (newPasskey ctx userData info (join "," ts))
  = Some (match ts with [] => [""] | _ :: _ => ts end).
Proof.
  intros H. unfold splitTransports, newPasskey.
  cbn [Passkey.transports option_map]. f_equal.
  destruct ts as [|t ts]; [reflexivity|].
  apply split_join; [discriminate|exact H].
Qed.

(** X7, witness. *)
Lemma X7_witness :
  splitTransports
    (newPasskey (R := Reference.runtime) (Demo.request None [] 0)
       {| UserData.id := "user-A"; UserData.email := "alice@example.com" |}
       Demo.info (join "," ["internal"; "hybrid"]))
  = Some ["internal"; "hybrid"].
Proof.
  exact
    (X7_transports_round_trip (R := Reference.runtime) (Demo.request None [] 0)
       {| UserData.id := "user-A"; UserData.email := "alice@example.com" |}
       Demo.info ["internal"; "hybrid"] eq_refl).
Defined.

(** ** The store between requests *)

Lemma verifyPasskeyRegistration_200
    {W : SimpleWebAuthn} {R : Runtime}
    (NODE_ENV : option string) (options : PasskeyOptions.t)
    (ctx : Context.t) (session : CallerSession.t)
    (resp : RegistrationResponseJSON.t) (db db' : Database.t) (p : Passkey.t) :
  verifyPasskeyRegistration NODE_ENV options ctx session resp db
  = (Json 200 (Some p) None [], db') ->
  db' = {| Database.passkey := Database.passkey db ++ [p];
           Database.session := Database.session db |} /\
  Passkey.userId p = User.id (CallerSession.user session).
Proof.
  unfold verifyPasskeyRegistration.
  destruct (truthy (resolveOrigin options ctx)); cbn [negb]; [|discriminate].
  destruct (unsealChallenge NODE_ENV options ctx) as [|e|data]; try discriminate.
  destruct (String.eqb_spec (UserData.id (WebAuthnCookieType.userData data))
              (User.id (CallerSession.user session))) as [Hid|Hid]; cbn [negb];
    [|discriminate].
  destruct (verifyRegistrationResponse _) as [v|e]; cbn [bind try_catch];
    [|discriminate].
  destruct (VerifiedRegistrationResponse.verified v); [|discriminate].
  destruct (VerifiedRegistrationResponse.registrationInfo v) as [info|];
    [|discriminate].
  unfold joinTransports.
  destruct (RegistrationResponseJSON.transports resp) as [ts|]; cbn [bind try_catch];
    [|discriminate].
  cbn [adapter.create]. intros H. injection H as <- <-. now split.
Qed.

Lemma findMany_userId_app (db : Database.t) (p : Passkey.t) (sessions : list Session.t) :
  adapter.findMany_userId
    {| Database.passkey := Database.passkey db ++ [p]; Database.session := sessions |}
    (Passkey.userId p)
  = adapter.findMany_userId db (Passkey.userId p) ++ [p].
Proof.
  unfold adapter.findMany_userId. cbn [Database.passkey].
  rewrite filter_app. simpl. now rewrite String.eqb_refl.
Qed.

(** X6.  Once verify-registration has replied 200 with a new credential,
    the caller's next generate-register-options request excludes that
    credential, and the caller's next generate-authenticate-options request
    carries an allow-list that ends with it. *)
Theorem X6_enrolled_credential_is_listed
    {W : SimpleWebAuthn} {R : Runtime}
    (NODE_ENV : option string) (options : PasskeyOptions.t)
    (ctx ctx' : Context.t) (session : CallerSession.t)
    (resp : RegistrationResponseJSON.t) (db db' : Database.t) (p : Passkey.t) :
  verifyPasskeyRegistration NODE_ENV options ctx session resp db
  = (Json 200 (Some p) None [], db') ->
  let own := adapter.findMany_userId db (User.id (CallerSession.user session)) in
  GenerateRegistrationOptionsOpts.excludeCredentials
    (registrationOptionsRequest NODE_ENV options ctx' session db')
  = map descriptor own ++ [descriptor p] /\
  GenerateAuthenticationOptionsOpts.allowCredentials
    (authenticationOptionsRequest NODE_ENV options (Some session) db')
  = Some (map descriptor own ++ [descriptor p]).
Proof.
  intros H own. subst own.
  apply verifyPasskeyRegistration_200 in H as [-> Howner].
  unfold registrationOptionsRequest, authenticationOptionsRequest.
  cbn [GenerateRegistrationOptionsOpts.excludeCredentials
       GenerateAuthenticationOptionsOpts.allowCredentials].
  rewrite <- Howner, findMany_userId_app, map_app. cbn [map].
  split; [reflexivity|].
  rewrite length_app. cbn [length]. rewrite Nat.add_comm. reflexivity.
Qed.

(** X6, witness: the options user A asks for after the registration. *)
Lemma X6_witness :
  GenerateRegistrationOptionsOpts.excludeCredentials
    (registrationOptionsRequest None Demo.options (Demo.request None [] 20) Demo.alice
       Scenario.afterEnrolment)
  = [descriptor Scenario.enrolled] /\
  GenerateAuthenticationOptionsOpts.allowCredentials
    (authenticationOptionsRequest None Demo.options (Some Demo.alice)
       Scenario.afterEnrolment)
  = Some [descriptor Scenario.enrolled].
Proof.
  exact
    (X6_enrolled_credential_is_listed
       (W := Reference.webAuthn "c1" Demo.info 0) (R := Reference.runtime)
       None Demo.options
       (Demo.request Scenario.origin Demo.registrationCookies 10)
       (Demo.request None [] 20) Demo.alice
       (Demo.registrationResponse (Some ["internal"; "hybrid"]))
       Demo.empty Scenario.afterEnrolment Scenario.enrolled eq_refl).
Defined.

Lemma findOne_id_app_new (db : Database.t) (p : Passkey.t) (sessions : list Session.t) :
  adapter.findOne_id db (Passkey.id p) = None ->
  adapter.findOne_id
    {| Database.passkey := Database.passkey db ++ [p]; Database.session := sessions |}
    (Passkey.id p) = Some p.
Proof.
  unfold adapter.findOne_id. cbn [Database.passkey].
  induction (Database.passkey db) as [|q l IH]; simpl.
  - now rewrite String.eqb_refl.
  - destruct (Passkey.id q =? Passkey.id p); [discriminate|exact IH].
Qed.

(** X10.  The credential a user enrols logs that user in.  After a 200
    reply of verify-registration for a credential id that no earlier row
    holds, a verify-authentication request that names this id, resolves an
    origin and unseals a challenge has the library judge the enrolled row
    (its id, its counter, its public key read back from base64); when the
    library reports verified, the reply is 200 with a session of the user
    who enrolled. *)
Theorem X10_enrolled_credential_logs_in
    {W : SimpleWebAuthn} {R : Runtime}
    (NODE_ENV : option string) (options : PasskeyOptions.t)
    (ctx ctx' : Context.t) (session : CallerSession.t)
    (registration : RegistrationResponseJSON.t) (db db' : Database.t) (p : Passkey.t)
    (authentication : AuthenticationResponseJSON.t) (data : WebAuthnCookieType.t)
    (v : VerifiedAuthenticationResponse.t) :
  verifyPasskeyRegistration NODE_ENV options ctx session registration db
  = (Json 200 (Some p) None [], db') ->
  adapter.findOne_id db (Passkey.id p) = None ->
  AuthenticationResponseJSON.id authentication = Passkey.id p ->
  truthy (resolveOrigin options ctx') = true ->
  unsealChallenge NODE_ENV options ctx' = ChallengeState data ->
  verifyAuthenticationResponse
    (authenticationVerifyRequest NODE_ENV options authentication
       (WebAuthnCookieType.expectedChallenge data) (resolveOrigin options ctx') p)
  = Returns v ->
  VerifiedAuthenticationResponse.verified v = true ->
  exists body cookie,
    fst (verifyPasskeyAuthentication NODE_ENV options ctx' authentication db')
    = Json 200 (Some body) None [cookie] /\
    Session.userId (LoginBody.session body) = User.id (CallerSession.user session).
Proof.
  intros Hreg Hnew Hid Horigin Hseal Hanswer Hverified.
  apply verifyPasskeyRegistration_200 in Hreg as [-> Howner].
  assert (Hfound :
    adapter.findOne_id
      {| Database.passkey := Database.passkey db ++ [p];
         Database.session := Database.session db |}
      (AuthenticationResponseJSON.id authentication) = Some p).
  { rewrite Hid. now apply findOne_id_app_new. }
  rewrite (verifyPasskeyAuthentication_verified NODE_ENV options ctx' authentication _
             data p v Horigin Hseal Hfound Hanswer Hverified).
  eexists _, _. split; [reflexivity|exact Howner].
Qed.

(** X10, witness: user A enrols cred-1 and logs in with it. *)
Lemma X10_witness :
  exists body cookie,
    fst Scenario.loginEnrolled = Json 200 (Some body) None [cookie] /\
    Session.userId (LoginBody.session body) = "user-A".
Proof.
  exact
    (X10_enrolled_credential_logs_in
       (W := Reference.webAuthn "c1" Demo.info 0) (R := Reference.runtime)
       None Demo.options
       (Demo.request Scenario.origin Demo.registrationCookies 10)
       (Demo.request Scenario.origin (Demo.challengeCookies "c1" 0) 20)
       Demo.alice (Demo.registrationResponse (Some ["internal"; "hybrid"]))
       Demo.empty Scenario.afterEnrolment Scenario.enrolled
       Scenario.enrolledResponse
       {| WebAuthnCookieType.expectedChallenge := "c1";
          WebAuthnCookieType.userData := {| UserData.id := ""; UserData.email := "" |};
          WebAuthnCookieType.callbackURL := None |}
       {| VerifiedAuthenticationResponse.verified := true;
          VerifiedAuthenticationResponse.authenticationInfo :=
            {| AuthenticationInfo.newCounter := 0 |} |}
       eq_refl eq_refl eq_refl eq_refl eq_refl eq_refl eq_refl).
Defined.

(** ** A challenge is not used up *)

Lemma unsealChallenge_ext
    {R : Runtime} (NODE_ENV : option string) (options : PasskeyOptions.t)
    (ctx ctx' : Context.t) :
  Context.cookies ctx' = Context.cookies ctx ->
  Context.secret ctx' = Context.secret ctx ->
  unsealChallenge NODE_ENV options ctx' = unsealChallenge NODE_ENV options ctx.
Proof.
  intros Hc Hs. unfold unsealChallenge, getSignedCookie. now rewrite Hc, Hs.
Qed.

(** X8.  After a login that succeeded, a second request with the same
    cookies, the same origin and the same response is not stopped by the
    handler: it unseals the same challenge, finds the credential with the
    counter the first login wrote, and asks the library again.  If the
    library reports verified once more, a second session of the owner is
    created; if it reports not verified the reply is 401, if it throws 400,
    and the database stays as the first login left it. *)
Theorem X8_challenge_replay
    {W : SimpleWebAuthn} {R : Runtime}
    (NODE_ENV : option string) (options : PasskeyOptions.t)
    (ctx ctx' : Context.t) (resp : AuthenticationResponseJSON.t) (db : Database.t)
    (data : WebAuthnCookieType.t) (passkey : Passkey.t)
    (v : VerifiedAuthenticationResponse.t) :
  truthy (resolveOrigin options ctx) = true ->
  unsealChallenge NODE_ENV options ctx = ChallengeState data ->
  adapter.findOne_id db (AuthenticationResponseJSON.id resp) = Some passkey ->
  verifyAuthenticationResponse
    (authenticationVerifyRequest NODE_ENV options resp
       (WebAuthnCookieType.expectedChallenge data) (resolveOrigin options ctx) passkey)
  = Returns v ->
  VerifiedAuthenticationResponse.verified v = true ->
  Context.cookies ctx' = Context.cookies ctx ->
  Context.secret ctx' = Context.secret ctx ->
  Context.header_origin ctx' = Context.header_origin ctx ->
  let n := AuthenticationInfo.newCounter
             (VerifiedAuthenticationResponse.authenticationInfo v) in
  let db1 := snd (verifyPasskeyAuthentication NODE_ENV options ctx resp db) in
  let second := verifyPasskeyAuthentication NODE_ENV options ctx' resp db1 in
  match
    verifyAuthenticationResponse
      (authenticationVerifyRequest NODE_ENV options resp
         (WebAuthnCookieType.expectedChallenge data) (resolveOrigin options ctx)
         (Passkey.set_counter n passkey))
  with
  | Returns v' =>
      if VerifiedAuthenticationResponse.verified v' then
        status (fst second) = Some 200 /\
        Database.session (snd second)
        = Database.session db
          ++ [{| Session.id := Context.newSessionId ctx;
                 Session.userId := Passkey.userId passkey |};
              {| Session.id := Context.newSessionId ctx';
                 Session.userId := Passkey.userId passkey |}]
      else second = (Json 401 None (Some "verification failed") [], db1)
  | Throws e => second = (Json 400 None (Some "Authentication failed") [], db1)
  end.
Proof.
  intros Horigin Hseal Hfound Hanswer Hverified Hcookies Hsecret Hheader n db1 second.
  subst second db1.
  rewrite (verifyPasskeyAuthentication_verified NODE_ENV options ctx resp db data passkey v
             Horigin Hseal Hfound Hanswer Hverified).
  cbn [snd]. fold n.
  assert (Horigin' : resolveOrigin options ctx' = resolveOrigin options ctx)
    by (unfold resolveOrigin; now rewrite Hheader).
  pose proof (unsealChallenge_ext NODE_ENV options ctx ctx' Hcookies Hsecret) as Hseal'.
  rewrite Hseal in Hseal'.
  pose proof (findOne_id_after_update db _ passkey n
                (Database.session db
                 ++ [{| Session.id := Context.newSessionId ctx;
                        Session.userId := Passkey.userId passkey |}]) Hfound) as Hfound'.
  destruct (verifyAuthenticationResponse
              (authenticationVerifyRequest NODE_ENV options resp
                 (WebAuthnCookieType.expectedChallenge data) (resolveOrigin options ctx)
                 (Passkey.set_counter n passkey))) as [v'|e] eqn:Hanswer'.
  - destruct (VerifiedAuthenticationResponse.verified v') eqn:Hverified'.
    + rewrite <- Horigin' in Hanswer'. rewrite <- Horigin' in Horigin.
      rewrite (verifyPasskeyAuthentication_verified NODE_ENV options ctx' resp _ data
                 (Passkey.set_counter n passkey) v'
                 Horigin Hseal' Hfound' Hanswer' Hverified').
      cbn [fst snd status Database.session Passkey.userId Passkey.set_counter].
      split; [reflexivity|]. now rewrite <- app_assoc.
    + unfold verifyPasskeyAuthentication.
      rewrite Horigin', Horigin, Hseal', Hfound', Hanswer'. cbn [negb bind].
      now rewrite Hverified'.
  - unfold verifyPasskeyAuthentication.
    rewrite Horigin', Horigin, Hseal', Hfound', Hanswer'. reflexivity.
Qed.

(** X8, witness: the login with cred-42 sent twice; the library used here
    verifies it both times. *)
Lemma X8_witness :
  status (fst Scenario.secondLogin) = Some 200 /\
  Database.session (snd Scenario.secondLogin)
  = [{| Session.id := "session-1"; Session.userId := "user-B" |};
     {| Session.id := "session-1"; Session.userId := "user-B" |}].
Proof.
  exact
    (X8_challenge_replay
       (W := Reference.webAuthn "c1" Demo.info 1) (R := Reference.runtime)
       None Demo.options (Demo.loginRequest 1 10) (Demo.loginRequest 1 20)
       Demo.loginResponse (Demo.store 0)
       {| WebAuthnCookieType.expectedChallenge := "c1";
          WebAuthnCookieType.userData := {| UserData.id := ""; UserData.email := "" |};
          WebAuthnCookieType.callbackURL := None |}
       (Demo.credential 0)
       {| VerifiedAuthenticationResponse.verified := true;
          VerifiedAuthenticationResponse.authenticationInfo :=
            {| AuthenticationInfo.newCounter := 1 |} |}
       eq_refl eq_refl eq_refl eq_refl eq_refl eq_refl eq_refl eq_refl).
Defined.

(** ** What generate-register-options hands out *)

(** X9.  generate-register-options leaves the database as it was and
    replies 200 with the options the library makes from the handler's
    request.  The exclusion list of that request holds the descriptors of
    the caller's stored credentials and of nobody else's; the user name is
    the caller's e-mail, or the user id when the e-mail is empty; the user
    handle is the bytes of the random string, not the user id; and the
    relying-party id is localhost under NODE_ENV=development. *)
Theorem X9_registration_options
    {W : SimpleWebAuthn} {R : Runtime}
    (NODE_ENV : option string) (options : PasskeyOptions.t)
    (ctx : Context.t) (session : CallerSession.t) (db : Database.t) :
  let user := CallerSession.user session in
  let request := registrationOptionsRequest NODE_ENV options ctx session db in
  (exists cookie,
      generatePasskeyRegistrationOptions NODE_ENV options ctx session db
      = (Json 200 (Some (generateRegistrationOptions request)) None [cookie], db)) /\
  (forall d,
      In d (GenerateRegistrationOptionsOpts.excludeCredentials request) <->
      exists p, In p (Database.passkey db) /\ Passkey.userId p = User.id user /\
                d = descriptor p) /\
  (User.email user = "" ->
   GenerateRegistrationOptionsOpts.userName request = User.id user) /\
  (User.email user <> "" ->
   GenerateRegistrationOptionsOpts.userName request = User.email user) /\
  GenerateRegistrationOptionsOpts.userID request
  = list_byte_of_string (Context.randomString ctx) /\
  (NODE_ENV = Some "development" ->
   GenerateRegistrationOptionsOpts.rpID request = "localhost").
Proof.
  intros user request. subst user request.
  unfold registrationOptionsRequest.
  cbn [GenerateRegistrationOptionsOpts.excludeCredentials
       GenerateRegistrationOptionsOpts.userName GenerateRegistrationOptionsOpts.userID
       GenerateRegistrationOptionsOpts.rpID].
  split; [eexists; reflexivity|]. split; [|split; [|split; [|split]]].
  - intros d. unfold adapter.findMany_userId. rewrite in_map_iff. split.
    + intros [p [Hd Hp]]. apply filter_In in Hp as [Hin Hu].
      exists p. split; [exact Hin|]. split; [now apply String.eqb_eq|now subst d].
    + intros [p [Hin [Hu Hd]]]. exists p. split; [now subst d|].
      apply filter_In. split; [exact Hin|now apply String.eqb_eq].
  - intros ->. reflexivity.
  - intros Hne. simpl. apply String.eqb_neq in Hne. unfold truthy. now rewrite Hne.
  - reflexivity.
  - intros ->. reflexivity.
Qed.

(** * Properties of the e-mail verification endpoints *)

Module VerifyEmailFacts.
Import VerifyEmail.

Lemma find_credential (accounts : list Account.t) (account : Account.t) :
  In account accounts -> Account.providerId account = "credential" ->
  exists a, find (fun a => Account.providerId a =? "credential") accounts = Some a.
Proof.
  intros Hin Hp.
  destruct (find (fun a => Account.providerId a =? "credential") accounts) as [a|] eqn:E.
  - now exists a.
  - apply (find_none _ _ E) in Hin. rewrite Hp in Hin. discriminate.
Qed.

Lemma reference_validate_create : LibrariesLaws referenceLibraries.
Proof. constructor. intros alg key email o t0 t _. reflexivity. Qed.

End VerifyEmailFacts.

(** X11.  [verifyEmail], on any request: it always replies and never
    throws, so no redirect ever leaves it; the user table is either
    untouched or is the result of one [updateUserByEmail] with
    [emailVerified: true], and the latter only for an address that the
    token's payload holds, that passes the e-mail check, and whose user is
    found with an account of the provider [credential].  A 200 reply is
    [{ status: true }], is given only when the query's [callbackURL] is
    empty, and means that this update was made. *)
Theorem X11_verifyEmail_effects
    {L : VerifyEmail.Libraries} {A : VerifyEmail.InternalAdapter}
    (ctx : VerifyEmail.EmailContext.t) (query : VerifyEmail.VerifyQuery.t)
    (users : VerifyEmail.Users) :
  let result := VerifyEmail.verifyEmail ctx query users in
  let accepted := fun e =>
    exists jwt user account,
      VerifyEmail.validateJWT "HS256"
        (list_byte_of_string (VerifyEmail.EmailContext.secret ctx))
        (VerifyEmail.VerifyQuery.token query) (VerifyEmail.EmailContext.now ctx)
      = Returns jwt /\
      VerifyEmail.JWT.payload_email jwt = Some e /\
      VerifyEmail.isEmail e = true /\
      VerifyEmail.findUserByEmail users e = Some user /\
      In account (VerifyEmail.UserWithAccounts.accounts user) /\
      VerifyEmail.Account.providerId account = "credential" in
  (exists reply, fst result = inl reply) /\
  (snd result = users \/
   exists e, accepted e /\ snd result = VerifyEmail.updateUserByEmail users e true) /\
  (forall reply,
      fst result = inl reply -> VerifyEmail.Reply.status reply = 200 ->
      reply = VerifyEmail.ok /\
      VerifyEmail.VerifyQuery.callbackURL query = "" /\
      exists e, accepted e /\ snd result = VerifyEmail.updateUserByEmail users e true).
Proof.
  intros result accepted. subst result accepted.
  unfold VerifyEmail.verifyEmail, VerifyEmail.catch, VerifyEmail.bindM,
    VerifyEmail.call, VerifyEmail.schema_parse.
  destruct (VerifyEmail.validateJWT _ _ _ _) as [jwt|e] eqn:Hjwt;
    cbn [VerifyEmail.ret VerifyEmail.throw fst snd];
    [|split; [eexists; reflexivity|split; [now left|]];
      intros reply H; injection H as <-; discriminate].
  destruct (VerifyEmail.JWT.payload_email jwt) as [e|] eqn:He;
    cbn [VerifyEmail.ret VerifyEmail.throw fst snd];
    [|split; [eexists; reflexivity|split; [now left|]];
      intros reply H; injection H as <-; discriminate].
  destruct (VerifyEmail.isEmail e) eqn:Hemail;
    cbn [VerifyEmail.ret VerifyEmail.throw fst snd];
    [|split; [eexists; reflexivity|split; [now left|]];
      intros reply H; injection H as <-; discriminate].
  destruct (VerifyEmail.findUserByEmail users e) as [user|] eqn:Huser;
    cbn [VerifyEmail.ret VerifyEmail.throw fst snd];
    [|split; [eexists; reflexivity|split; [now left|]];
      intros reply H; injection H as <-; discriminate].
  destruct (find _ (VerifyEmail.UserWithAccounts.accounts user)) as [account|] eqn:Hacc;
    cbn [VerifyEmail.ret VerifyEmail.throw fst snd];
    [|split; [eexists; reflexivity|split; [now left|]];
      intros reply H; injection H as <-; discriminate].
  apply find_some in Hacc as [Hin Hp]. apply String.eqb_eq in Hp.
  assert (Hok : exists e0,
    (exists jwt0 user0 account0,
        Returns jwt = Returns jwt0 /\
        VerifyEmail.JWT.payload_email jwt0 = Some e0 /\
        VerifyEmail.isEmail e0 = true /\
        VerifyEmail.findUserByEmail users e0 = Some user0 /\
        In account0 (VerifyEmail.UserWithAccounts.accounts user0) /\
        VerifyEmail.Account.providerId account0 = "credential") /\
    VerifyEmail.updateUserByEmail users e true
    = VerifyEmail.updateUserByEmail users e0 true).
  { exists e. split; [|reflexivity]. exists jwt, user, account. repeat split; assumption. }
  destruct (truthy (VerifyEmail.VerifyQuery.callbackURL query)) eqn:Hcb;
    cbn [VerifyEmail.ret VerifyEmail.throw fst snd].
  - split; [eexists; reflexivity|]. split; [now right|].
    intros reply H. injection H as <-. discriminate.
  - split; [eexists; reflexivity|]. split; [now right|].
    intros reply H _. injection H as <-. split; [reflexivity|].
    split; [now apply truthy_false|exact Hok].
Qed.

(** X12.  When the token validates, its payload holds an address that
    passes the e-mail check, and the user of that address is found with an
    account of the provider [credential], [verifyEmail] marks the address
    verified.  With an empty [callbackURL] it then replies 200
    [{ status: true }].  With a non-empty [callbackURL] the redirect it
    throws is caught by its own [catch] block: the reply is 400
    INVALID_TOKEN, and the address stays marked verified. *)
Theorem X12_redirect_is_caught
    {L : VerifyEmail.Libraries} {A : VerifyEmail.InternalAdapter}
    (ctx : VerifyEmail.EmailContext.t) (query : VerifyEmail.VerifyQuery.t)
    (users : VerifyEmail.Users) (jwt : VerifyEmail.JWT.t) (e : string)
    (user : VerifyEmail.UserWithAccounts.t) (account : VerifyEmail.Account.t) :
  VerifyEmail.validateJWT "HS256"
    (list_byte_of_string (VerifyEmail.EmailContext.secret ctx))
    (VerifyEmail.VerifyQuery.token query) (VerifyEmail.EmailContext.now ctx)
  = Returns jwt ->
  VerifyEmail.JWT.payload_email jwt = Some e ->
  VerifyEmail.isEmail e = true ->
  VerifyEmail.findUserByEmail users e = Some user ->
  In account (VerifyEmail.UserWithAccounts.accounts user) ->
  VerifyEmail.Account.providerId account = "credential" ->
  VerifyEmail.verifyEmail ctx query users
  = (inl (if truthy (VerifyEmail.VerifyQuery.callbackURL query)
          then VerifyEmail.failure "INVALID_TOKEN" "Invalid token"
          else VerifyEmail.ok),
     VerifyEmail.updateUserByEmail users e true).
Proof.
  intros Hjwt He Hemail Huser Hin Hp.
  destruct (VerifyEmailFacts.find_credential _ _ Hin Hp) as [a Ha].
  unfold VerifyEmail.verifyEmail, VerifyEmail.catch, VerifyEmail.bindM,
    VerifyEmail.call, VerifyEmail.schema_parse.
  rewrite Hjwt. cbn [VerifyEmail.ret]. rewrite He, Hemail. cbn [VerifyEmail.ret].
  rewrite Huser, Ha.
  now destruct (truthy (VerifyEmail.VerifyQuery.callbackURL query)).
Qed.

(** X12, witness: the token mailed to Alice, with a redirect target. *)
Lemma X12_witness :
  VerifyEmail.verifyMailed "Alice@Example.com" "/welcome" 10
  = (inl (VerifyEmail.failure "INVALID_TOKEN" "Invalid token"),
     [VerifyEmail.setVerified true VerifyEmail.alice; VerifyEmail.carol]).
Proof.
  exact
    (X12_redirect_is_caught
       (L := VerifyEmail.referenceLibraries) (A := VerifyEmail.referenceAdapter)
       (VerifyEmail.context 10)
       {| VerifyEmail.VerifyQuery.token :=
            VerifyEmail.verificationToken (L := VerifyEmail.referenceLibraries)
              (VerifyEmail.context 0) "Alice@Example.com";
          VerifyEmail.VerifyQuery.callbackURL := "/welcome" |}
       VerifyEmail.table
       {| VerifyEmail.JWT.payload_email := Some "alice@example.com" |}
       "alice@example.com" VerifyEmail.alice
       {| VerifyEmail.Account.providerId := "credential" |}
       eq_refl eq_refl eq_refl eq_refl (or_introl eq_refl) eq_refl).
Defined.

(** X13.  The failures of [verifyEmail], each with the user table left as
    it was: a token the library rejects, a payload without a string under
    [email], and an address that fails the e-mail check are all answered
    400 INVALID_TOKEN; an address no user has is answered 400
    USER_NOT_FOUND; a user none of whose accounts is of the provider
    [credential] is answered 400 ACCOUNT_NOT_FOUND. *)
Theorem X13_verifyEmail_failures
    {L : VerifyEmail.Libraries} {A : VerifyEmail.InternalAdapter}
    (ctx : VerifyEmail.EmailContext.t) (query : VerifyEmail.VerifyQuery.t)
    (users : VerifyEmail.Users) :
  let answer :=
    VerifyEmail.validateJWT "HS256"
      (list_byte_of_string (VerifyEmail.EmailContext.secret ctx))
      (VerifyEmail.VerifyQuery.token query) (VerifyEmail.EmailContext.now ctx) in
  let result := VerifyEmail.verifyEmail ctx query users in
  let invalid := (inl (VerifyEmail.failure "INVALID_TOKEN" "Invalid token"), users) in
  (forall x, answer = Throws x -> result = invalid) /\
  (forall jwt, answer = Returns jwt ->
     (VerifyEmail.JWT.payload_email jwt = None -> result = invalid) /\
     (forall e, VerifyEmail.JWT.payload_email jwt = Some e ->
        (VerifyEmail.isEmail e = false -> result = invalid) /\
        (VerifyEmail.isEmail e = true ->
         (VerifyEmail.findUserByEmail users e = None ->
          result = (inl (VerifyEmail.failure "USER_NOT_FOUND" "User not found"), users)) /\
         (forall user,
             VerifyEmail.findUserByEmail users e = Some user ->
             (forall a, In a (VerifyEmail.UserWithAccounts.accounts user) ->
                        VerifyEmail.Account.providerId a <> "credential") ->
             result
             = (inl (VerifyEmail.failure "ACCOUNT_NOT_FOUND" "Account not found"),
                users))))).
Proof.
  intros answer result invalid. subst answer result invalid.
  unfold VerifyEmail.verifyEmail, VerifyEmail.catch, VerifyEmail.bindM,
    VerifyEmail.call, VerifyEmail.schema_parse.
  split.
  - intros x ->. reflexivity.
  - intros jwt ->. cbn [VerifyEmail.ret]. split.
    + intros ->. reflexivity.
    + intros e ->. split.
      * intros ->. reflexivity.
      * intros ->. cbn [VerifyEmail.ret]. split.
        -- intros ->. reflexivity.
        -- intros user -> Hnone.
           destruct (find _ (VerifyEmail.UserWithAccounts.accounts user))
             as [a|] eqn:Hacc; [|reflexivity].
           apply find_some in Hacc as [Hin Hp]. apply String.eqb_eq in Hp.
           now apply Hnone in Hin.
Qed.

(** X14.  The link of [sendVerificationEmail] verifies the lower-cased
    address.  Under libraries that meet the contract of the token, the
    token made for an address at one time and given to [verifyEmail] under
    the same secret less than an hour later is accepted; when the address in
    lower case passes the e-mail check and its user is found with an account
    of the provider [credential], that address, in lower case and not as
    typed, is marked verified. *)
Theorem X14_mailed_token_verifies
    {L : VerifyEmail.Libraries} {Laws : VerifyEmail.LibrariesLaws L}
    {A : VerifyEmail.InternalAdapter}
    (ctx0 ctx : VerifyEmail.EmailContext.t) (email callbackURL : string)
    (users : VerifyEmail.Users)
    (user : VerifyEmail.UserWithAccounts.t) (account : VerifyEmail.Account.t) :
  VerifyEmail.EmailContext.secret ctx = VerifyEmail.EmailContext.secret ctx0 ->
  (VerifyEmail.EmailContext.now ctx < VerifyEmail.EmailContext.now ctx0 + 3600)%N ->
  VerifyEmail.isEmail (VerifyEmail.toLowerCase email) = true ->
  VerifyEmail.findUserByEmail users (VerifyEmail.toLowerCase email) = Some user ->
  In account (VerifyEmail.UserWithAccounts.accounts user) ->
  VerifyEmail.Account.providerId account = "credential" ->
  VerifyEmail.verifyEmail ctx
    {| VerifyEmail.VerifyQuery.token := VerifyEmail.verificationToken ctx0 email;
       VerifyEmail.VerifyQuery.callbackURL := callbackURL |}
    users
  = (inl (if truthy callbackURL
          then VerifyEmail.failure "INVALID_TOKEN" "Invalid token"
          else VerifyEmail.ok),
     VerifyEmail.updateUserByEmail users (VerifyEmail.toLowerCase email) true).
Proof.
  intros Hsecret Htime Hemail Huser Hin Hp.
  destruct (VerifyEmailFacts.find_credential _ _ Hin Hp) as [a Ha].
  unfold VerifyEmail.verifyEmail, VerifyEmail.catch, VerifyEmail.bindM,
    VerifyEmail.call, VerifyEmail.schema_parse, VerifyEmail.verificationToken.
  cbn [VerifyEmail.VerifyQuery.token VerifyEmail.VerifyQuery.callbackURL].
  rewrite Hsecret, VerifyEmail.validate_create by exact Htime.
  cbn [VerifyEmail.ret VerifyEmail.JWT.payload_email].
  rewrite Hemail. cbn [VerifyEmail.ret]. rewrite Huser, Ha.
  now destruct (truthy callbackURL).
Qed.

(** X14, witness: the token mailed to Alice as she typed her address,
    presented ten seconds later. *)
Lemma X14_witness :
  VerifyEmail.verifyMailed "Alice@Example.com" "" 10
  = (inl VerifyEmail.ok, [VerifyEmail.setVerified true VerifyEmail.alice; VerifyEmail.carol]).
Proof.
  exact
    (X14_mailed_token_verifies
       (L := VerifyEmail.referenceLibraries)
       (Laws := VerifyEmailFacts.reference_validate_create)
       (A := VerifyEmail.referenceAdapter)
       (VerifyEmail.context 0) (VerifyEmail.context 10) "Alice@Example.com" ""
       VerifyEmail.table VerifyEmail.alice
       {| VerifyEmail.Account.providerId := "credential" |}
       eq_refl eq_refl eq_refl eq_refl (or_introl eq_refl) eq_refl).
Defined.

(** X15.  [sendVerificationEmail] and the application's mail function.
    When none is configured the reply is 400 VERIFICATION_EMAIL_NOT_SENT and
    nothing is run.  When one is configured it is run once, on the address
    as typed and on the link; the link is the base URL, the path with the
    token, and then, after a second question mark, the [callbackURL] of the
    body, or the text undefined when the body has none.  The reply is 200
    [{ status: true }] when the function returns; when it throws, the
    handler does not catch it and gives no reply. *)
Theorem X15_sendVerificationEmail
    {L : VerifyEmail.Libraries} {S : Type}
    (ctx : VerifyEmail.EmailContext.t) (body : VerifyEmail.SendBody.t) (s : S) :
  let email := VerifyEmail.SendBody.email body in
  let link :=
    (VerifyEmail.EmailContext.baseURL ctx ++ "/verify-email?token="
     ++ VerifyEmail.verificationToken ctx email ++ "?callbackURL="
     ++ match VerifyEmail.SendBody.callbackURL body with
        | Some c => c
        | None => "undefined"
        end)%string in
  VerifyEmail.sendVerificationEmail ctx None body s
  = (inl (VerifyEmail.failure "VERIFICATION_EMAIL_NOT_SENT"
            "Verification email isn't enabled"), s) /\
  forall send : string -> string -> VerifyEmail.M S unit,
    (forall s', send email link s = (inl tt, s') ->
                VerifyEmail.sendVerificationEmail ctx (Some send) body s
                = (inl VerifyEmail.ok, s')) /\
    (forall x s', send email link s = (inr x, s') ->
                  VerifyEmail.sendVerificationEmail ctx (Some send) body s
                  = (inr x, s')).
Proof.
  intros email link. subst email link. split; [reflexivity|].
  intros send.
  unfold VerifyEmail.sendVerificationEmail, VerifyEmail.bindM,
    VerifyEmail.verificationLink.
  split.
  - intros s' ->. reflexivity.
  - intros x s' ->. reflexivity.
Qed.

(** ** A challenge cookie that is not a challenge state *)

(** X16.  What the verifying endpoints do with a challenge cookie whose
    signature verifies but whose value is not a challenge state, in a
    request that resolves an origin.  An empty value is answered 400 like a
    missing cookie.  A non-empty value on which [JSON.parse] throws is not
    answered at all: the call is outside the [try] block of either handler,
    so the exception leaves the handler; the database is left as it was. *)
Theorem X16_unparsable_challenge
    {W : SimpleWebAuthn} {R : Runtime}
    (NODE_ENV : option string) (options : PasskeyOptions.t)
    (ctx : Context.t) (session : CallerSession.t)
    (registration : RegistrationResponseJSON.t)
    (authentication : AuthenticationResponseJSON.t) (db : Database.t)
    (value : string) :
  truthy (resolveOrigin options ctx) = true ->
  getSignedCookie ctx (Opts.webAuthnChallengeCookie (opts NODE_ENV options))
    (Context.secret ctx) = CookieValue value ->
  (value = "" ->
   verifyPasskeyRegistration NODE_ENV options ctx session registration db
   = (Json 400 None None [], db) /\
   verifyPasskeyAuthentication NODE_ENV options ctx authentication db
   = (Json 400 None None [], db)) /\
  (forall e,
      value <> "" -> JSON_parse value = Throws e ->
      verifyPasskeyRegistration NODE_ENV options ctx session registration db
      = (Uncaught e, db) /\
      verifyPasskeyAuthentication NODE_ENV options ctx authentication db
      = (Uncaught e, db)).
Proof.
  intros Horigin Hcookie.
  unfold verifyPasskeyRegistration, verifyPasskeyAuthentication, unsealChallenge.
  rewrite Horigin, Hcookie. cbn [negb]. split.
  - intros ->. now split.
  - intros e Hne Hparse. apply String.eqb_neq in Hne. unfold truthy.
    rewrite Hne, Hparse. now split.
Qed.

(** X16, witness: a cookie signed with the server secret whose value is not
    JSON. *)
Lemma X16_witness :
  fst (verifyPasskeyAuthentication
         (W := Reference.webAuthn "c1" Demo.info 1) (R := Reference.runtime)
         None Demo.options
         (Demo.request Scenario.origin [("better-auth-passkey", "s3cret.hello")] 10)
         Demo.loginResponse (Demo.store 0))
  = Uncaught "SyntaxError".
Proof.
  exact
    (f_equal fst
       (proj2
          (proj2
             (X16_unparsable_challenge
                (W := Reference.webAuthn "c1" Demo.info 1) (R := Reference.runtime)
                None Demo.options
                (Demo.request Scenario.origin [("better-auth-passkey", "s3cret.hello")] 10)
                Demo.alice (Demo.registrationResponse None) Demo.loginResponse
                (Demo.store 0) "hello" eq_refl eq_refl)
             "SyntaxError" ltac:(discriminate) eq_refl))).
Defined.
